(** * Yandex.Disk public-folder client: listing, link resolution, archives

    A shallow embedding of [files/views.py].  Python [str] values are
    sequences of Unicode code points, JSON documents are a small value
    type, and every function that talks to the network or the cache is a
    state-passing computation over an explicit [World] that can end in a
    Python exception.

    Outside the model: what [print] writes; JSON numbers that are not
    integers; the byte format of a ZIP file, which is a parameter
    [zip_encode] of the archive builders (an archive is the list of
    entries handed to [writestr] and [write], in order); directories on
    the local disk, which is a map from paths to the bytes of regular
    files.  Paths follow POSIX ([os.sep] is a slash).  The dict decoded
    from a JSON object has distinct keys. *)

From Stdlib Require Import ZArith NArith String Ascii.
From stdpp Require Import base numbers option list gmap.

Set Default Proof Using "Type".
Local Open Scope Z_scope.

(** ** Python strings *)

(** A [str] is a sequence of code points; slicing counts code points. *)
Abbreviation str := (list N).

(** Decoder for the UTF-8 literals written in this file. *)
Fixpoint utf8_decode (bs : list N) : str :=
  match bs with
  | [] => []
  | b0 :: t0 =>
      if (b0 <? 128)%N then b0 :: utf8_decode t0
      else if (b0 <? 224)%N then
        match t0 with
        | b1 :: t1 =>
            N.lor (N.shiftl (N.land b0 31) 6) (N.land b1 63) :: utf8_decode t1
        | _ => []
        end
      else if (b0 <? 240)%N then
        match t0 with
        | b1 :: b2 :: t2 =>
            N.lor (N.shiftl (N.land b0 15) 12)
              (N.lor (N.shiftl (N.land b1 63) 6) (N.land b2 63))
            :: utf8_decode t2
        | _ => []
        end
      else
        match t0 with
        | b1 :: b2 :: b3 :: t3 =>
            N.lor (N.shiftl (N.land b0 7) 18)
              (N.lor (N.shiftl (N.land b1 63) 12)
                 (N.lor (N.shiftl (N.land b2 63) 6) (N.land b3 63)))
            :: utf8_decode t3
        | _ => []
        end
  end.

Definition py (s : string) : str :=
  utf8_decode (map N_of_ascii (list_ascii_of_string s)).
Arguments py : simpl never.

(** [str.encode('utf-8')] with the default strict error handler: lone
    surrogates are refused. *)
Definition utf8_encode_char (c : N) : option (list N) :=
  if (c <? 128)%N then Some [c]
  else if (c <? 2048)%N then
    Some [N.lor 192 (N.shiftr c 6); N.lor 128 (N.land c 63)]
  else if (c <? 65536)%N then
    if ((55296 <=? c) && (c <=? 57343))%N then None
    else Some [N.lor 224 (N.shiftr c 12);
               N.lor 128 (N.land (N.shiftr c 6) 63);
               N.lor 128 (N.land c 63)]
  else if (c <? 1114112)%N then
    Some [N.lor 240 (N.shiftr c 18);
          N.lor 128 (N.land (N.shiftr c 12) 63);
          N.lor 128 (N.land (N.shiftr c 6) 63);
          N.lor 128 (N.land c 63)]
  else None.

Fixpoint utf8_encode (s : str) : option (list N) :=
  match s with
  | [] => Some []
  | c :: s' =>
      match utf8_encode_char c, utf8_encode s' with
      | Some bs, Some bs' => Some (bs ++ bs')
      | _, _ => None
      end
  end.

(** ** Exceptions and outcomes *)

Inductive exn :=
  | TransportError      (* the HTTP client could not complete the exchange *)
  | JSONDecodeError     (* [response.json()] on a body that is not JSON *)
  | AttributeError      (* [.get] on a value that is not a dict *)
  | TypeError           (* iterating a non-iterable, a URL that is not a str *)
  | UnicodeEncodeError. (* [quote_plus] on a lone surrogate *)

(** [Unfinished] is not a Python outcome: it marks a run of the paging
    loop that used up the iteration budget of the model. *)
Inductive outcome (A : Type) :=
  | Ok (a : A)
  | Raise (e : exn)
  | Unfinished.
Arguments Ok {A} a.
Arguments Raise {A} e.
Arguments Unfinished {A}.

(** ** [urllib.parse.quote_plus] *)

(** Bytes never quoted: ASCII letters, digits and [_.-~]. *)
Definition always_safe (b : N) : bool :=
  (((65 <=? b) && (b <=? 90)) || ((97 <=? b) && (b <=? 122))
   || ((48 <=? b) && (b <=? 57))
   || (b =? 95) || (b =? 46) || (b =? 45) || (b =? 126))%N.

Definition hex_digit (d : N) : N :=
  if (d <? 10)%N then (48 + d)%N else (55 + d)%N.

(** One byte of the encoded text: kept, a space turned into [+], or
    [%XX] in upper-case hexadecimal. *)
Definition quote_byte (b : N) : str :=
  if always_safe b then [b]
  else if (b =? 32)%N then [43%N]
  else [37%N; hex_digit (b / 16); hex_digit (b mod 16)].

Definition quote_plus (s : str) : outcome str :=
  match utf8_encode s with
  | Some bs => Ok (flat_map quote_byte bs)
  | None => Raise UnicodeEncodeError
  end.

(** ** JSON documents as Python values *)

(** What [json()] can produce, and [None] for an absent [dict.get].
    Numbers are integers here; a dict keeps its fields in order. *)
#[warnings="-register-all"]
Inductive value :=
  | VNone
  | VBool (b : bool)
  | VInt (z : Z)
  | VStr (s : str)
  | VList (l : list value)
  | VDict (d : list (str * value)).

Definition truthy (v : value) : bool :=
  match v with
  | VNone => false
  | VBool b => b
  | VInt z => negb (z =? 0)
  | VStr s => negb (bool_decide (s = []))
  | VList [] => false
  | VList (_ :: _) => true
  | VDict [] => false
  | VDict (_ :: _) => true
  end.

Fixpoint lookup_field (k : str) (d : list (str * value)) : option value :=
  match d with
  | [] => None
  | (k', v) :: d' => if bool_decide (k = k') then Some v else lookup_field k d'
  end.

(** [obj.get(key, default)]: only a dict has the method. *)
Definition py_get (obj : value) (key : str) (dflt : value) : outcome value :=
  match obj with
  | VDict d => Ok (default dflt (lookup_field key d))
  | _ => Raise AttributeError
  end.

(** ** The outside world: network, cache, clock *)

Record Request := mkRequest {
  url : str;
  params : list (str * Z);
  headers : list (str * str)
}.

#[global] Instance Request_eq_dec : EqDecision Request.
Proof. solve_decision. Defined.

(** An archive entry: its name and its bytes. *)
Abbreviation ZipEntry := (str * list Byte.byte)%type.

(** A response object: its status, what [json()] gives ([None] when the
    body does not decode) and what [read()] gives. *)
Record Response := mkResponse {
  status_code : Z;
  json : option value;
  content : list Byte.byte
}.

Inductive Reply :=
  | NoReply
  | Answer (r : Response).

(** The remote side answers a request knowing the requests made so far. *)
Abbreviation Network := (list Request -> Request -> Reply).

Record CacheEntry := mkEntry {
  cached : list value;
  expires : Z
}.

Record World := mkWorld {
  trace : list Request;           (* requests issued, oldest first *)
  cache : gmap str CacheEntry;    (* django.core.cache *)
  now : Z                         (* the clock, in seconds *)
}.

Definition M (A : Type) : Type := World -> outcome A * World.

Definition ret {A} (a : A) : M A := fun w => (Ok a, w).

Definition lift {A} (o : outcome A) : M A := fun w => (o, w).

Definition bind {A B} (m : M A) (k : A -> M B) : M B :=
  fun w =>
    match m w with
    | (Ok a, w') => k a w'
    | (Raise e, w') => (Raise e, w')
    | (Unfinished, w') => (Unfinished, w')
    end.

Notation "'let*' x ':=' m 'in' k" := (bind m (fun x => k))
  (at level 10, x name, m at level 100, k at level 200).

(** [cache.get(key)]: an entry is gone once its expiry instant is reached. *)
Definition cache_get (key : str) : M (option (list value)) :=
  fun w =>
    match cache w !! key with
    | Some e => if now w <? expires e then (Ok (Some (cached e)), w)
                else (Ok None, w)
    | None => (Ok None, w)
    end.

(** [cache.set(key, value, timeout=...)]: the last writer wins. *)
Definition cache_set (key : str) (v : list value) (timeout : Z) : M unit :=
  fun w =>
    (Ok tt, mkWorld (trace w)
              (<[key := mkEntry v (now w + timeout)]> (cache w)) (now w)).

Definition response_json (r : Response) : outcome value :=
  match json r with
  | Some v => Ok v
  | None => Raise JSONDecodeError
  end.

(** The world after one more request. *)
Definition sent (r : Request) (w : World) : World :=
  mkWorld (trace w ++ [r]) (cache w) (now w).

Definition YANDEX_DISK_API_URL : str :=
  py "https://cloud-api.yandex.net/v1/disk/public/resources".

Section Client.

(** The remote API and the service credential of the settings module. *)
Variable net : Network.
Variable YANDEX_DISK_TOKEN : str.

(** [requests.get] and [session.get]: the request is recorded, then the
    remote side answers or the exchange fails. *)
Definition http_get (r : Request) : M Response :=
  fun w =>
    let w' := sent r w in
    match net (trace w) r with
    | NoReply => (Raise TransportError, w')
    | Answer resp => (Ok resp, w')
    end.

Definition auth_headers : list (str * str) :=
  [(py "Authorization", py "OAuth " ++ YANDEX_DISK_TOKEN)].

Definition get_download_link (public_key file_path : str) : M value :=
  let public_key := public_key ++ py "//" ++ take 31 file_path in
  let file_path := drop 31 file_path in
  let* encoded_file_path := lift (quote_plus file_path) in
  let url := YANDEX_DISK_API_URL ++ py "/download?public_key=" ++ public_key
               ++ py "&path=" ++ encoded_file_path in
  let* response := http_get (mkRequest url [] auth_headers) in
  if status_code response =? 200 then
    let* data := lift (response_json response) in
    lift (py_get data (py "href") (VStr []))
  else ret (VStr []).

Definition get_download_link_async (public_key file_path : str) : M value :=
  let download_url := YANDEX_DISK_API_URL ++ py "/download?public_key="
                        ++ public_key ++ py "&path=" ++ file_path in
  let* response := http_get (mkRequest download_url [] auth_headers) in
  if status_code response =? 200 then
    let* data := lift (response_json response) in
    lift (py_get data (py "href") (VStr []))
  else ret (VStr []).

(** *** Listing a public folder *)

(** The f-string [f"files_{public_key}_{media_type}"]; [None] prints as
    the text [None]. *)
Definition cache_key (public_key : str) (media_type : option str) : str :=
  py "files_" ++ public_key ++ py "_"
    ++ match media_type with Some m => m | None => py "None" end.

(** [if media_type]: neither [None] nor the empty string. *)
Definition filter_on (media_type : option str) : bool :=
  match media_type with
  | Some (_ :: _) => true
  | _ => false
  end.

(** [v != media_type] for a string [media_type]. *)
Definition differs_from (v : value) (m : str) : bool :=
  match v with
  | VStr s => negb (bool_decide (s = m))
  | _ => true
  end.

(** [for item in items]: lists yield their elements, strings their
    characters, dicts their keys; nothing else iterates. *)
Definition py_iter (v : value) : outcome (list value) :=
  match v with
  | VList l => Ok l
  | VStr s => Ok (map (fun c => VStr [c]) s)
  | VDict d => Ok (map (fun kv => VStr (fst kv)) d)
  | _ => Raise TypeError
  end.

(** The body of the [for] loop, run over one page. *)
Fixpoint append_items (media_type : option str) (items files : list value)
  : outcome (list value) :=
  match items with
  | [] => Ok files
  | item :: rest =>
      if filter_on media_type then
        match py_get item (py "media_type") VNone with
        | Ok v =>
            if differs_from v (default [] media_type)
            then append_items media_type rest files
            else append_items media_type rest (files ++ [item])
        | Raise e => Raise e
        | Unfinished => Unfinished
        end
      else append_items media_type rest (files ++ [item])
  end.

Definition limit : Z := 50.

(** The [while True] loop; [fuel] bounds the number of pages requested. *)
Fixpoint fetch_pages (fuel : nat) (url : str) (media_type : option str)
    (files : list value) (offset : Z) : M (list value) :=
  match fuel with
  | O => lift Unfinished
  | S fuel' =>
      let params := [(py "limit", limit); (py "offset", offset)] in
      let* response := http_get (mkRequest url params auth_headers) in
      if status_code response =? 200 then
        let* data := lift (response_json response) in
        let* embedded := lift (py_get data (py "_embedded") (VDict [])) in
        let* items := lift (py_get embedded (py "items") (VList [])) in
        if negb (truthy items) then ret files
        else
          let* page := lift (py_iter items) in
          let* files := lift (append_items media_type page files) in
          fetch_pages fuel' url media_type files (offset + limit)
      else ret files
  end.

Definition get_files_from_public_link (fuel : nat) (public_key : str)
    (media_type : option str) : M (list value) :=
  let cache_key := cache_key public_key media_type in
  let* cached_files := cache_get cache_key in
  match cached_files with
  | Some files => ret files
  | None =>
      let url := YANDEX_DISK_API_URL ++ py "?public_key=" ++ public_key in
      let* files := fetch_pages fuel url media_type [] 0 in
      let* _ := cache_set cache_key files 3600 in
      ret files
  end.

(** *** Archives *)

(** An [io.BytesIO]: its bytes and the stream position. *)
Record BytesIO := mkBytesIO {
  getvalue : list Byte.byte;
  tell : Z
}.

Definition seek (b : BytesIO) (pos : Z) : BytesIO := mkBytesIO (getvalue b) pos.

(** The bytes [zipfile.ZipFile(buffer, 'w', ZIP_DEFLATED)] leaves in its
    buffer on close, for the entries written in this order. *)
Variable zip_encode : list ZipEntry -> list Byte.byte.

(** Leaving the [with] block closes the archive: the buffer holds the
    encoded entries and the stream stands at its end. *)
Definition close_zip (zip_file : list ZipEntry) : BytesIO :=
  mkBytesIO (zip_encode zip_file) (Z.of_nat (length (zip_encode zip_file))).

(** [session.get(download_url)] needs a string. *)
Definition as_url (v : value) : outcome str :=
  match v with
  | VStr s => Ok s
  | _ => Raise TypeError
  end.

(** The [for file_path in file_paths] loop; [zip_file] holds the entries
    written so far. *)
Fixpoint zip_from_yandex (public_key : str) (file_paths : list str)
    (zip_file : list ZipEntry) : M (list ZipEntry) :=
  match file_paths with
  | [] => ret zip_file
  | file_path :: rest =>
      let* download_url := get_download_link_async public_key file_path in
      if truthy download_url then
        let* target := lift (as_url download_url) in
        let* response := http_get (mkRequest target [] []) in
        if status_code response =? 200 then
          zip_from_yandex public_key rest
            (zip_file ++ [(file_path, content response)])
        else zip_from_yandex public_key rest zip_file
      else zip_from_yandex public_key rest zip_file
  end.

Definition create_zip_archive_from_yandex (public_key : str)
    (file_paths : list str) : M BytesIO :=
  let* zip_file := zip_from_yandex public_key file_paths [] in
  let zip_buffer := close_zip zip_file in
  ret (seek zip_buffer 0).

(** *** The multi-file download view *)

Record HttpRequest := mkHttpRequest {
  method : str;
  POST : list (str * str)       (* the form fields, in order *)
}.

Inductive Body :=
  | Text (s : str)
  | Binary (b : list Byte.byte).

Record HttpResponse := mkHttpResponse {
  status : Z;
  body : Body;
  content_type : option str;    (* [None]: the framework default *)
  extra_headers : list (str * str)
}.

(** [QueryDict.getlist(key)]: every value sent under [key]. *)
Definition getlist (key : str) (q : list (str * str)) : list str :=
  map snd (List.filter (fun kv => bool_decide (fst kv = key)) q).

Definition download_multiple_files (request : HttpRequest)
    (public_key : str) : M HttpResponse :=
  if bool_decide (method request = py "POST") then
    let files_to_download := getlist (py "files") (POST request) in
    match files_to_download with
    | [] =>
        ret (mkHttpResponse 400
               (Text (py "Ошибка: Не выбраны файлы для скачивания."))
               None [])
    | _ :: _ =>
        let* zip_buffer :=
          create_zip_archive_from_yandex public_key files_to_download in
        ret (mkHttpResponse 200 (Binary (getvalue zip_buffer))
               (Some (py "application/zip"))
               [(py "Content-Disposition",
                 py "attachment; filename=" ++ [34%N] ++ py "files.zip"
                   ++ [34%N])])
    end
  else
    ret (mkHttpResponse 405 (Text (py "Метод не поддерживается.")) None []).

(** *** Archives of local files *)

(** The media root of the settings module and the local disk: the bytes
    of the regular file at a path, if there is one. *)
Variable MEDIA_ROOT : str.
Variable disk : str -> option (list Byte.byte).

Definition sep : N := 47%N.

(** [s.lstrip('/')] *)
Fixpoint lstrip_sep (s : str) : str :=
  match s with
  | c :: s' => if (c =? sep)%N then lstrip_sep s' else s
  | [] => []
  end.

(** [os.path.join(a, b)] on POSIX. *)
Definition os_path_join (a b : str) : str :=
  if bool_decide (head b = Some sep) then b
  else if bool_decide (a = []) || bool_decide (last a = Some sep) then a ++ b
  else a ++ [sep] ++ b.

(** [os.path.basename(p)] on POSIX: what follows the last separator. *)
Fixpoint basename_from (p acc : str) : str :=
  match p with
  | [] => acc
  | c :: p' =>
      if (c =? sep)%N then basename_from p' [] else basename_from p' (acc ++ [c])
  end.

Definition os_path_basename (p : str) : str := basename_from p [].

Fixpoint zip_from_disk (file_paths : list str) (zip_file : list ZipEntry)
  : list ZipEntry :=
  match file_paths with
  | [] => zip_file
  | file_path :: rest =>
      let file_full_path := os_path_join MEDIA_ROOT (lstrip_sep file_path) in
      match disk file_full_path with
      | Some data =>
          zip_from_disk rest (zip_file ++ [(os_path_basename file_path, data)])
      | None => zip_from_disk rest zip_file
      end
  end.

Definition create_zip_archive (file_paths : list str) : BytesIO :=
  let zip_buffer := close_zip (zip_from_disk file_paths []) in
  seek zip_buffer 0.

End Client.

(** ** Vocabulary of the statements *)

(** The request of one turn of the paging loop. *)
Definition turn_request (token url : str) (offset : Z) : Request :=
  mkRequest url [(py "limit", limit); (py "offset", offset)]
    (auth_headers token).

(** The request for page [i] of a listing: fixed size 50, offset [50 * i]. *)
Definition page_request (token pk : str) (i : nat) : Request :=
  mkRequest (YANDEX_DISK_API_URL ++ py "?public_key=" ++ pk)
    [(py "limit", 50); (py "offset", 50 * Z.of_nat i)]
    (auth_headers token).

(** The requests for pages [k], [k+1], ..., [k+n-1]. *)
Definition page_requests (token pk : str) (k n : nat) : list Request :=
  map (page_request token pk) (seq k n).

(** The reply to the request for page [k + i], made after the requests
    [h] and the requests for pages [k], ..., [k + i - 1]. *)
Definition page_reply (net : Network) (token pk : str) (h : list Request)
    (k i : nat) : Reply :=
  net (h ++ page_requests token pk k i) (page_request token pk (k + i)).

(** The items of a reply that is a status-200 page: a JSON object whose
    [_embedded.items], when present, is a list. *)
Definition page_items (rep : Reply) : option (list value) :=
  match rep with
  | Answer resp =>
      if status_code resp =? 200 then
        match json resp with
        | Some (VDict d) =>
            match default (VDict []) (lookup_field (py "_embedded") d) with
            | VDict e =>
                match default (VList []) (lookup_field (py "items") e) with
                | VList items => Some items
                | _ => None
                end
            | _ => None
            end
        | _ => None
        end
      else None
  | NoReply => None
  end.

(** A reply carrying a status other than 200. *)
Definition failed_status (rep : Reply) : bool :=
  match rep with
  | Answer resp => negb (status_code resp =? 200)
  | NoReply => false
  end.

Definition is_record (v : value) : bool :=
  match v with
  | VDict _ => true
  | _ => false
  end.

(** The [media_type] field of a listing item, when it is a string. *)
Definition item_media_type (item : value) : option str :=
  match item with
  | VDict d =>
      match lookup_field (py "media_type") d with
      | Some (VStr s) => Some s
      | _ => None
      end
  | _ => None
  end.

(** The filter as the specification words it: off, or an exact match. *)
Definition keeps (media_type : option str) (item : value) : bool :=
  negb (filter_on media_type)
  || bool_decide (item_media_type item = media_type).

(** A page the [for] loop can walk without a failed [.get]: the filter is
    off, or every item is a JSON object. *)
Definition filterable (media_type : option str) (items : list value) : bool :=
  negb (filter_on media_type) || forallb is_record items.

(** The request of the non-blocking resolver for one path. *)
Definition link_request (token pk file_path : str) : Request :=
  mkRequest (YANDEX_DISK_API_URL ++ py "/download?public_key=" ++ pk
               ++ py "&path=" ++ file_path)
    [] (auth_headers token).

(** The request of the blocking resolver, for the encoded remainder
    [enc] of the path. *)
Definition blocking_request (token pk file_path enc : str) : Request :=
  mkRequest (YANDEX_DISK_API_URL ++ py "/download?public_key="
               ++ (pk ++ py "//" ++ take 31 file_path) ++ py "&path=" ++ enc)
    [] (auth_headers token).

(** What one path contributes to a remote archive, when [on_link]
    answers the link request and [on_fetch] the download that follows:
    the bytes written, if any, and the requests made. *)
Inductive path_step (on_link on_fetch : Request -> Reply)
    (token pk file_path : str)
  : option (list Byte.byte) -> list Request -> Prop :=
  | step_fetched resp d target data_resp :
      on_link (link_request token pk file_path) = Answer resp ->
      status_code resp = 200 ->
      json resp = Some (VDict d) ->
      lookup_field (py "href") d = Some (VStr target) ->
      target <> [] ->
      on_fetch (mkRequest target [] []) = Answer data_resp ->
      status_code data_resp = 200 ->
      path_step on_link on_fetch token pk file_path
        (Some (content data_resp))
        [link_request token pk file_path; mkRequest target [] []]
  | step_fetch_refused resp d target data_resp :
      on_link (link_request token pk file_path) = Answer resp ->
      status_code resp = 200 ->
      json resp = Some (VDict d) ->
      lookup_field (py "href") d = Some (VStr target) ->
      target <> [] ->
      on_fetch (mkRequest target [] []) = Answer data_resp ->
      status_code data_resp <> 200 ->
      path_step on_link on_fetch token pk file_path None
        [link_request token pk file_path; mkRequest target [] []]
  | step_no_link resp :
      on_link (link_request token pk file_path) = Answer resp ->
      status_code resp <> 200 ->
      path_step on_link on_fetch token pk file_path None
        [link_request token pk file_path]
  | step_empty_link resp d :
      on_link (link_request token pk file_path) = Answer resp ->
      status_code resp = 200 ->
      json resp = Some (VDict d) ->
      truthy (default (VStr []) (lookup_field (py "href") d)) = false ->
      path_step on_link on_fetch token pk file_path None
        [link_request token pk file_path].

(** The paths taken one after the other, each against the remote side as
    it stands after the requests made so far. *)
Fixpoint archive_steps (net : Network) (token pk : str) (h : list Request)
    (file_paths : list str)
    (outs : list (option (list Byte.byte) * list Request)) : Prop :=
  match file_paths, outs with
  | [], [] => True
  | p :: ps, (o, reqs) :: os =>
      path_step (net h) (net (h ++ [link_request token pk p])) token pk p
        o reqs
      /\ archive_steps net token pk (h ++ reqs) ps os
  | _, _ => False
  end.

(** The entries of the paths that contributed bytes, in order. *)
Fixpoint written (file_paths : list str)
    (outs : list (option (list Byte.byte) * list Request)) : list ZipEntry :=
  match file_paths, outs with
  | p :: ps, (Some data, _) :: os => (p, data) :: written ps os
  | _ :: ps, (None, _) :: os => written ps os
  | _, _ => []
  end.

(** ** Fixtures *)

Definition w0 : World := mkWorld [] ∅ 0.

Definition tok : str := py "secret".
Definition folder : str := py "https://disk.yandex.ru/d/abc".

Definition param (k : str) (r : Request) : Z :=
  default 0 (snd <$> List.find (fun kv => bool_decide (fst kv = k)) (params r)).

Definition listing_item (i : nat) : value :=
  VDict [(py "size", VInt (Z.of_nat i));
         (py "media_type",
          VStr (if Nat.even i then py "image" else py "video"))].

Definition page_body (items : list value) : value :=
  VDict [(py "_embedded", VDict [(py "items", VList items)])].

(** A remote folder of [items], served by offset and limit. *)
Definition listing_api (items : list value) : Network :=
  fun _ r =>
    Answer (mkResponse 200
              (Some (page_body
                       (take (Z.to_nat (param (py "limit") r))
                          (drop (Z.to_nat (param (py "offset") r)) items))))
              []).

(** The same folder, with the page at offset 50 refused. *)
Definition flaky_listing_api (items : list value) : Network :=
  fun h r =>
    if param (py "offset") r =? 50 then Answer (mkResponse 500 None [])
    else listing_api items h r.

Definition items125 : list value := map listing_item (seq 0 125).
Definition items150 : list value := map listing_item (seq 0 150).

(** A remote side that answers every request with status 200 and a body
    that is not JSON. *)
Definition garbled_api : Network :=
  fun _ _ => Answer (mkResponse 200 None [Byte.x3c; Byte.x68; Byte.x3e]).

Definition bytes_a : list Byte.byte := [Byte.x61; Byte.x61].
Definition bytes_c : list Byte.byte := [Byte.x63].

(** Three files: [a.txt] and [c.txt] resolve and download, [b.txt] does
    not resolve. *)
Definition archive_api (r : Request) : Reply :=
  if bool_decide (r = link_request tok folder (py "a.txt")) then
    Answer (mkResponse 200
              (Some (VDict [(py "href", VStr (py "https://dl/a"))])) [])
  else if bool_decide (r = link_request tok folder (py "c.txt")) then
    Answer (mkResponse 200
              (Some (VDict [(py "href", VStr (py "https://dl/c"))])) [])
  else if bool_decide (r = mkRequest (py "https://dl/a") [] []) then
    Answer (mkResponse 200 None bytes_a)
  else if bool_decide (r = mkRequest (py "https://dl/c") [] []) then
    Answer (mkResponse 200 None bytes_c)
  else Answer (mkResponse 404 None []).

(** A stand-in archive format for the examples: the stored bytes in a row. *)
Definition stored_encode (es : list ZipEntry) : list Byte.byte :=
  flat_map snd es.

Definition media_root : str := py "/srv/media".


(** ** The single-file view *)

Section SingleFile.

Variable net : Network.
Variable YANDEX_DISK_TOKEN : str.

(** [django.shortcuts.redirect]: the response it builds for a target, or
    the exception it raises; it depends on the URL configuration of the
    project, which lies outside this module. *)
Variable redirect : value -> outcome HttpResponse.

Definition download_file (request : HttpRequest) (public_key file_path : str)
  : M HttpResponse :=
  let file_path :=
    match file_path with
    | c :: rest => if (c =? sep)%N then rest else file_path
    | [] => file_path
    end in
  let* download_url :=
    get_download_link net YANDEX_DISK_TOKEN public_key file_path in
  if truthy download_url then lift (redirect download_url)
  else
    ret (mkHttpResponse 400
           (Text (py "Ошибка при получении ссылки для скачивания."))
           None []).

End SingleFile.

(** ** More fixtures *)

(** A remote side that answers every request with the same one-item page. *)
Definition endless_api : Network :=
  fun _ _ => Answer (mkResponse 200 (Some (page_body [listing_item 0])) []).

(** A redirect that accepts string targets. *)
Definition plain_redirect (target : value) : outcome HttpResponse :=
  match target with
  | VStr u => Ok (mkHttpResponse 302 (Text []) None [(py "Location", u)])
  | _ => Raise TypeError
  end.

(** ** Decoders, used to show that the encoding loses nothing *)

Definition unhex (c : N) : N :=
  if (c <? 58)%N then (c - 48)%N else (c - 55)%N.

(** Reads back [flat_map quote_byte]. *)
Fixpoint unquote_bytes (s : str) : list N :=
  match s with
  | [] => []
  | c :: rest =>
      if (c =? 37)%N then
        match rest with
        | h1 :: h2 :: rest' =>
            (16 * unhex h1 + unhex h2)%N :: unquote_bytes rest'
        | _ => []
        end
      else if (c =? 43)%N then 32%N :: unquote_bytes rest
      else c :: unquote_bytes rest
  end.

(** A remote side that leaves one request without a reply. *)
Definition silent_on (r0 : Request) (api : Request -> Reply) : Network :=
  fun _ r => if bool_decide (r = r0) then NoReply else api r.

(** ** The two link resolvers *)

Section Resolvers.

Variable net : Network.
Variable token : str.







End Resolvers.

(** ** Listing: one turn of the paging loop *)

Section Listing.

Variable net : Network.
Variable token : str.

Lemma append_items_off mt items files :
  filter_on mt = false -> append_items mt items files = Ok (files ++ items).
Proof.
  intros Hoff. revert files.
  induction items as [|item rest IH]; intros files; simpl.
  - by rewrite app_nil_r.
  - rewrite Hoff, IH, <- app_assoc. done.
Qed.

Lemma differs_from_keeps m d :
  differs_from (default VNone (lookup_field (py "media_type") d)) m
  = negb (bool_decide (item_media_type (VDict d) = Some m)).
Proof.
  unfold item_media_type.
  destruct (lookup_field (py "media_type") d) as [[| | |s| |]|]; simpl; try done.
  f_equal. apply bool_decide_ext. split; congruence.
Qed.

Lemma append_items_spec mt items files :
  filterable mt items = true ->
  append_items mt items files = Ok (files ++ List.filter (keeps mt) items).
Proof.
  unfold filterable. destruct (filter_on mt) eqn:Hon; simpl.
  - destruct mt as [[|c m]|]; try discriminate. revert files.
    induction items as [|item rest IH]; intros files Hrec.
    + simpl. by rewrite app_nil_r.
    + simpl in Hrec. apply andb_prop in Hrec as [Hitem Hrest].
      destruct item as [| | | | |d]; try discriminate.
      cbn [append_items filter_on py_get List.filter default from_option].
      unfold id. rewrite differs_from_keeps. unfold keeps at 1.
      cbn [filter_on negb orb].
      destruct (bool_decide (item_media_type (VDict d) = Some (c :: m)));
        cbn [negb]; rewrite IH by done; [|done].
      by rewrite <- app_assoc.
  - intros _. rewrite append_items_off by done. f_equal. f_equal.
    induction items as [|item rest IH]; simpl; [done|].
    unfold keeps at 1. rewrite Hon. simpl. by rewrite <- IH.
Qed.

Lemma page_items_inv rep items :
  page_items rep = Some items ->
  exists resp d e,
    rep = Answer resp /\ status_code resp = 200 /\ json resp = Some (VDict d)
    /\ default (VDict []) (lookup_field (py "_embedded") d) = VDict e
    /\ default (VList []) (lookup_field (py "items") e) = VList items.
Proof.
  unfold page_items. destruct rep as [|resp]; [done|].
  destruct (status_code resp =? 200) eqn:Hst; [|done].
  destruct (json resp) as [[| | | | |d]|] eqn:Hj; try done.
  destruct (default (VDict []) (lookup_field (py "_embedded") d))
    as [| | | | |e] eqn:He; try done.
  destruct (default (VList []) (lookup_field (py "items") e))
    as [| | | |l|] eqn:Hi; try done.
  intros [= <-]. exists resp, d, e. repeat split; try done. lia.
Qed.

(** A turn that receives an empty page ends the loop. *)
Lemma fetch_pages_empty fuel url mt files offset w :
  page_items (net (trace w) (turn_request token url offset)) = Some [] ->
  fetch_pages net token (S fuel) url mt files offset w
  = (Ok files, sent (turn_request token url offset) w).
Proof.
  intros (resp & d & e & Hrep & Hst & Hj & He & Hi)%page_items_inv.
  simpl. unfold bind at 1. unfold http_get. fold (turn_request token url offset).
  rewrite Hrep, Hst. simpl. unfold bind, lift, response_json, py_get.
  rewrite Hj, He, Hi. done.
Qed.

(** A turn that receives a status other than 200 ends the loop. *)
Lemma fetch_pages_failed fuel url mt files offset w :
  failed_status (net (trace w) (turn_request token url offset)) = true ->
  fetch_pages net token (S fuel) url mt files offset w
  = (Ok files, sent (turn_request token url offset) w).
Proof.
  unfold failed_status. destruct (net _ _) as [|resp] eqn:Hrep; [done|].
  intros Hst. simpl. unfold bind at 1. unfold http_get.
  fold (turn_request token url offset). rewrite Hrep.
  apply negb_true_iff in Hst. by rewrite Hst.
Qed.

(** A turn that receives a non-empty page filters it and goes on at the
    next offset. *)
Lemma fetch_pages_page fuel url mt files offset w items :
  page_items (net (trace w) (turn_request token url offset)) = Some items ->
  items <> [] ->
  filterable mt items = true ->
  fetch_pages net token (S fuel) url mt files offset w
  = fetch_pages net token fuel url mt
      (files ++ List.filter (keeps mt) items) (offset + limit)
      (sent (turn_request token url offset) w).
Proof.
  intros (resp & d & e & Hrep & Hst & Hj & He & Hi)%page_items_inv Hne Hok.
  simpl. unfold bind at 1. unfold http_get. fold (turn_request token url offset).
  rewrite Hrep, Hst. simpl. unfold bind at 1 2 3, lift at 1 2 3.
  unfold response_json, py_get. rewrite Hj, He, Hi.
  destruct items as [|item rest]; [done|].
  unfold bind, lift. cbn [truthy negb py_iter].
  by rewrite append_items_spec.
Qed.

Lemma page_request_turn pk i :
  page_request token pk i
  = turn_request token (YANDEX_DISK_API_URL ++ py "?public_key=" ++ pk)
      (50 * Z.of_nat i).
Proof. reflexivity. Qed.

Lemma page_reply_shift pk w k i :
  page_reply net token pk (trace (sent (page_request token pk k) w)) (S k) i
  = page_reply net token pk (trace w) k (S i).
Proof.
  unfold page_reply, page_requests. simpl.
  by rewrite <- app_assoc, Nat.add_succ_r.
Qed.

Lemma page_reply_first pk w k :
  page_reply net token pk (trace w) k 0
  = net (trace w) (page_request token pk k).
Proof.
  unfold page_reply, page_requests. simpl.
  by rewrite app_nil_r, Nat.add_0_r.
Qed.

(** The whole loop: non-empty pages [pages], then a page that is empty
    or refused.  One request per page and one for the page that stops
    the loop; the result is what the filter keeps, in page order. *)
Lemma fetch_pages_run pk mt pages :
  forall fuel files k w,
    (length pages < fuel)%nat ->
    (forall i items, pages !! i = Some items ->
       items <> [] /\ filterable mt items = true
       /\ page_items (page_reply net token pk (trace w) k i) = Some items) ->
    (page_items (page_reply net token pk (trace w) k (length pages)) = Some []
     \/ failed_status (page_reply net token pk (trace w) k (length pages))
        = true) ->
    fetch_pages net token fuel
      (YANDEX_DISK_API_URL ++ py "?public_key=" ++ pk) mt files
      (50 * Z.of_nat k) w
    = (Ok (files ++ List.filter (keeps mt) (concat pages)),
       mkWorld (trace w ++ page_requests token pk k (S (length pages)))
         (cache w) (now w)).
Proof.
  induction pages as [|page rest IH]; intros fuel files k w Hfuel Hpages Hstop.
  - destruct fuel as [|fuel]; [simpl in Hfuel; lia|].
    simpl length in Hstop. rewrite page_reply_first, page_request_turn in Hstop.
    destruct Hstop as [Hempty|Hfail];
      [rewrite fetch_pages_empty by done|rewrite fetch_pages_failed by done];
      unfold sent, page_requests;
      cbn [concat List.filter seq map length];
      by rewrite app_nil_r, page_request_turn.
  - destruct fuel as [|fuel]; [simpl in Hfuel; lia|].
    destruct (Hpages 0%nat page eq_refl) as (Hne & Hok & Hpage).
    rewrite page_reply_first, page_request_turn in Hpage.
    rewrite (fetch_pages_page _ _ _ _ _ _ page) by done.
    replace (50 * Z.of_nat k + limit) with (50 * Z.of_nat (S k))
      by (unfold limit; lia).
    rewrite <- page_request_turn.
    rewrite (IH fuel _ (S k)).
    + unfold sent. cbn [trace cache now concat length].
      by rewrite List.filter_app, <- !app_assoc.
    + simpl in Hfuel. lia.
    + intros i items Hi. rewrite page_reply_shift.
      apply (Hpages (S i)). done.
    + rewrite !page_reply_shift. done.
Qed.

(** One turn of the loop, with the monad unfolded. *)
Lemma fetch_pages_turn fuel url mt files offset w :
  fetch_pages net token (S fuel) url mt files offset w =
  let w' := sent (turn_request token url offset) w in
  match net (trace w) (turn_request token url offset) with
  | NoReply => (Raise TransportError, w')
  | Answer resp =>
      if status_code resp =? 200 then
        match response_json resp with
        | Ok data =>
            match py_get data (py "_embedded") (VDict []) with
            | Ok embedded =>
                match py_get embedded (py "items") (VList []) with
                | Ok items =>
                    if negb (truthy items) then (Ok files, w')
                    else
                      match py_iter items with
                      | Ok page =>
                          match append_items mt page files with
                          | Ok files' =>
                              fetch_pages net token fuel url mt files'
                                (offset + limit) w'
                          | Raise e => (Raise e, w')
                          | Unfinished => (Unfinished, w')
                          end
                      | Raise e => (Raise e, w')
                      | Unfinished => (Unfinished, w')
                      end
                | Raise e => (Raise e, w')
                | Unfinished => (Unfinished, w')
                end
            | Raise e => (Raise e, w')
            | Unfinished => (Unfinished, w')
            end
        | Raise e => (Raise e, w')
        | Unfinished => (Unfinished, w')
        end
      else (Ok files, w')
  end.
Proof.
  simpl. unfold bind at 1. unfold http_get. fold (turn_request token url offset).
  destruct (net _ _) as [|resp]; [done|].
  destruct (status_code resp =? 200); [|done].
  unfold bind, lift.
  destruct (response_json resp) as [data| |]; try done.
  destruct (py_get data _ _) as [embedded| |]; try done.
  destruct (py_get embedded _ _) as [items| |]; try done.
  destruct (negb (truthy items)); [done|].
  destruct (py_iter items) as [page| |]; try done.
Qed.

Ltac turn_cases mt files :=
  rewrite ?fetch_pages_turn; cbv zeta;
  destruct (net _ _) as [|?resp]; [done|];
  destruct (status_code _ =? 200); [|done];
  destruct (response_json _) as [?data| |]; try done;
  destruct (py_get _ (py "_embedded") _) as [?embedded| |]; try done;
  destruct (py_get _ (py "items") _) as [?items| |]; try done;
  destruct (negb (truthy _)); [done|];
  destruct (py_iter _) as [?page| |]; try done;
  destruct (append_items mt _ files) as [?files'| |]; try done.

(** The loop only adds to the trace: cache and clock are untouched. *)
Lemma fetch_pages_cache fuel : forall url mt files offset w,
  cache (snd (fetch_pages net token fuel url mt files offset w)) = cache w.
Proof.
  induction fuel as [|fuel IH]; intros url mt files offset w; [done|].
  turn_cases mt files. by rewrite IH.
Qed.

Lemma fetch_pages_now fuel : forall url mt files offset w,
  now (snd (fetch_pages net token fuel url mt files offset w)) = now w.
Proof.
  induction fuel as [|fuel IH]; intros url mt files offset w; [done|].
  turn_cases mt files. by rewrite IH.
Qed.

(** A run that finished is not changed by a larger budget. *)
Lemma fetch_pages_more_fuel fuel : forall fuel' url mt files offset w,
  (fuel <= fuel')%nat ->
  fst (fetch_pages net token fuel url mt files offset w) <> Unfinished ->
  fetch_pages net token fuel' url mt files offset w
  = fetch_pages net token fuel url mt files offset w.
Proof.
  induction fuel as [|fuel IH]; intros fuel' url mt files offset w Hle;
    [done|].
  destruct fuel' as [|fuel']; [lia|].
  turn_cases mt files. intros Hfin. apply IH; [lia|done].
Qed.

Lemma get_files_hit fuel pk mt w files :
  cache_get (cache_key pk mt) w = (Ok (Some files), w) ->
  get_files_from_public_link net token fuel pk mt w = (Ok files, w).
Proof.
  intros Hhit. unfold get_files_from_public_link, bind at 1.
  by rewrite Hhit.
Qed.

(** On a miss the loop runs from offset 0 and its result is stored for
    3600 seconds under the key of the call. *)
Lemma get_files_miss fuel pk mt w :
  cache_get (cache_key pk mt) w = (Ok None, w) ->
  get_files_from_public_link net token fuel pk mt w =
  match fetch_pages net token fuel
          (YANDEX_DISK_API_URL ++ py "?public_key=" ++ pk) mt [] 0 w with
  | (Ok files, w') =>
      (Ok files,
       mkWorld (trace w')
         (<[cache_key pk mt := mkEntry files (now w' + 3600)]> (cache w'))
         (now w'))
  | (Raise e, w') => (Raise e, w')
  | (Unfinished, w') => (Unfinished, w')
  end.
Proof.
  intros Hmiss. unfold get_files_from_public_link, bind at 1.
  rewrite Hmiss. unfold bind, cache_set, ret.
  by destruct (fetch_pages _ _ _ _ _ _ _ _) as [[files| |] w'].
Qed.

Lemma cache_get_world key w : snd (cache_get key w) = w.
Proof.
  unfold cache_get. destruct (cache w !! key) as [e|]; [|done].
  by destruct (now w <? expires e).
Qed.

Lemma get_files_more_fuel fuel fuel' pk mt w :
  (fuel <= fuel')%nat ->
  fst (get_files_from_public_link net token fuel pk mt w) <> Unfinished ->
  get_files_from_public_link net token fuel' pk mt w
  = get_files_from_public_link net token fuel pk mt w.
Proof.
  intros Hle.
  destruct (cache_get (cache_key pk mt) w) as [[[files|]| |] w1] eqn:Hget;
    pose proof (cache_get_world (cache_key pk mt) w) as Hw;
    rewrite Hget in Hw; simpl in Hw; subst w1.
  - by rewrite !(get_files_hit _ _ _ _ files).
  - rewrite !get_files_miss by done.
    intros Hfin. rewrite (fetch_pages_more_fuel fuel fuel'); [done|done|].
    by destruct (fetch_pages net token fuel _ _ _ _ _) as [[?| |] ?].
  - unfold cache_get in Hget. destruct (cache w !! _) as [entry|]; [|done].
    by destruct (now w <? expires entry).
  - unfold cache_get in Hget. destruct (cache w !! _) as [entry|]; [|done].
    by destruct (now w <? expires entry).
Qed.

(** A miss followed by the pages [pages] and a stopping page. *)
Lemma get_files_run fuel pk mt w pages :
  cache_get (cache_key pk mt) w = (Ok None, w) ->
  (length pages < fuel)%nat ->
  (forall i items, pages !! i = Some items ->
     items <> [] /\ filterable mt items = true
     /\ page_items (page_reply net token pk (trace w) 0 i) = Some items) ->
  (page_items (page_reply net token pk (trace w) 0 (length pages)) = Some []
   \/ failed_status (page_reply net token pk (trace w) 0 (length pages))
      = true) ->
  get_files_from_public_link net token fuel pk mt w
  = (Ok (List.filter (keeps mt) (concat pages)),
     mkWorld (trace w ++ page_requests token pk 0 (S (length pages)))
       (<[cache_key pk mt :=
            mkEntry (List.filter (keeps mt) (concat pages)) (now w + 3600)]>
          (cache w))
       (now w)).
Proof.
  intros Hmiss Hfuel Hpages Hstop. rewrite get_files_miss by done.
  change 0 with (50 * Z.of_nat 0).
  by rewrite (fetch_pages_run pk mt pages fuel [] 0 w).
Qed.

End Listing.

(** ** Paging *)

(** C2, as the code has it.  On a cache miss [get_files_from_public_link]
    requests pages of 50 items at offsets 0, 50, 100, ... and stops at
    the first page with zero items, returning the kept items of the
    earlier pages in order; for [n] non-empty pages it issues [n + 1]
    requests.  Against a folder of exactly 125 items it returns the 125
    items in order and issues exactly 4 requests, at offsets 0, 50, 100
    and 150, the last one answered with an empty page. *)
Theorem C2_pages_of_fifty_until_empty :
  (forall (net : Network) (token pk : str) (mt : option str)
          (pages : list (list value)) (fuel : nat) (w : World),
      cache_get (cache_key pk mt) w = (Ok None, w) ->
      (length pages < fuel)%nat ->
      (forall i items, pages !! i = Some items ->
         items <> [] /\ filterable mt items = true
         /\ page_items (page_reply net token pk (trace w) 0 i) = Some items) ->
      page_items (page_reply net token pk (trace w) 0 (length pages))
        = Some [] ->
      fst (get_files_from_public_link net token fuel pk mt w)
        = Ok (List.filter (keeps mt) (concat pages))
      /\ trace (snd (get_files_from_public_link net token fuel pk mt w))
         = trace w ++ page_requests token pk 0 (S (length pages)))
  /\ (forall fuel : nat, (4 <= fuel)%nat ->
        let run :=
          get_files_from_public_link (listing_api items125) tok fuel folder
            None w0 in
        fst run = Ok items125
        /\ length items125 = 125%nat
        /\ length (trace (snd run)) = 4%nat
        /\ map (param (py "limit")) (trace (snd run)) = [50; 50; 50; 50]
        /\ map (param (py "offset")) (trace (snd run)) = [0; 50; 100; 150]).
Proof.
  split.
  - intros net token pk mt pages fuel w Hmiss Hfuel Hpages Hstop.
    rewrite (get_files_run net token fuel pk mt w pages) by auto.
    done.
  - intros fuel Hfuel run. subst run.
    rewrite (get_files_more_fuel _ _ 4 fuel) by (done || by vm_compute).
    vm_compute. done.
Qed.

Lemma C2_pages_of_fifty_until_empty_witness :
  (fst (get_files_from_public_link (listing_api items125) tok 4 folder
          (Some (py "video")) w0)
     = Ok (List.filter (keeps (Some (py "video")))
             (concat [take 50 items125; take 50 (drop 50 items125);
                      drop 100 items125]))
   /\ trace (snd (get_files_from_public_link (listing_api items125) tok 4
                    folder (Some (py "video")) w0))
      = trace w0 ++ page_requests tok folder 0 4)
  /\ length (trace (snd (get_files_from_public_link (listing_api items125)
                           tok 5 folder None w0))) = 4%nat.
Proof.
  split.
  - apply (proj1 C2_pages_of_fifty_until_empty (listing_api items125) tok
             folder (Some (py "video"))
             [take 50 items125; take 50 (drop 50 items125); drop 100 items125]
             4%nat w0).
    + reflexivity.
    + simpl. lia.
    + intros [|[|[|i]]] items Hi; simpl in Hi; [| | |discriminate];
        injection Hi as <-; repeat split; (discriminate || by vm_compute).
    + by vm_compute.
  - apply (proj2 C2_pages_of_fifty_until_empty 5%nat). lia.
Defined.

(** The count of 3 requests fails on the 125-item folder: the third page
    still has items, so a fourth request follows. *)
Lemma C2_counterexample :
  ~ exists (fuel : nat) (files : list value) (w' : World),
      get_files_from_public_link (listing_api items125) tok fuel folder
        None w0 = (Ok files, w')
      /\ length files = 125%nat
      /\ length (trace w') = 3%nat.
Proof.
  intros (fuel & files & w' & Hrun & _ & Hlen).
  assert (Hmax : get_files_from_public_link (listing_api items125) tok
                   (Nat.max fuel 4) folder None w0 = (Ok files, w')).
  { rewrite <- Hrun. apply get_files_more_fuel; [lia|by rewrite Hrun]. }
  rewrite (get_files_more_fuel _ _ 4 (Nat.max fuel 4)) in Hmax
    by (lia || by vm_compute).
  assert (H4 : length (trace (snd (get_files_from_public_link
                  (listing_api items125) tok 4 folder None w0))) = 4%nat)
    by (by vm_compute).
  rewrite Hmax in H4. simpl in H4. lia.
Qed.

(** ** Early termination *)

(** C3. When pages [0 .. n-1] are served and page [n] comes back with a
    status other than 200, the loop ends at that request: the call
    returns normally with the kept items of the earlier pages and makes
    no request after the refused one.  With page 2 of 3 refused, the
    result is exactly page 1 and nothing is asked at offset 100. *)
Theorem C3_refused_page_ends_paging :
  (forall (net : Network) (token pk : str) (mt : option str)
          (pages : list (list value)) (fuel : nat) (w : World),
      cache_get (cache_key pk mt) w = (Ok None, w) ->
      (length pages < fuel)%nat ->
      (forall i items, pages !! i = Some items ->
         items <> [] /\ filterable mt items = true
         /\ page_items (page_reply net token pk (trace w) 0 i) = Some items) ->
      failed_status (page_reply net token pk (trace w) 0 (length pages))
        = true ->
      fst (get_files_from_public_link net token fuel pk mt w)
        = Ok (List.filter (keeps mt) (concat pages))
      /\ trace (snd (get_files_from_public_link net token fuel pk mt w))
         = trace w ++ page_requests token pk 0 (S (length pages)))
  /\ (forall fuel : nat, (2 <= fuel)%nat ->
        let run :=
          get_files_from_public_link (flaky_listing_api items150) tok fuel
            folder None w0 in
        fst run = Ok (take 50 items150)
        /\ map (param (py "offset")) (trace (snd run)) = [0; 50]).
Proof.
  split.
  - intros net token pk mt pages fuel w Hmiss Hfuel Hpages Hstop.
    rewrite (get_files_run net token fuel pk mt w pages) by auto.
    done.
  - intros fuel Hfuel run. subst run.
    rewrite (get_files_more_fuel _ _ 2 fuel) by (done || by vm_compute).
    by vm_compute.
Qed.

Lemma C3_refused_page_ends_paging_witness :
  (fst (get_files_from_public_link (flaky_listing_api items150) tok 2 folder
          (Some (py "image")) w0)
     = Ok (List.filter (keeps (Some (py "image")))
             (concat [take 50 items150]))
   /\ trace (snd (get_files_from_public_link (flaky_listing_api items150)
                    tok 2 folder (Some (py "image")) w0))
      = trace w0 ++ page_requests tok folder 0 2)
  /\ map (param (py "offset"))
       (trace (snd (get_files_from_public_link (flaky_listing_api items150)
                      tok 7 folder None w0))) = [0; 50].
Proof.
  split.
  - apply (proj1 C3_refused_page_ends_paging (flaky_listing_api items150) tok
             folder (Some (py "image")) [take 50 items150] 2%nat w0).
    + reflexivity.
    + simpl. lia.
    + intros [|i] items Hi; simpl in Hi; [|discriminate].
      injection Hi as <-. repeat split; (discriminate || by vm_compute).
    + by vm_compute.
  - apply (proj2 C3_refused_page_ends_paging 7%nat). lia.
Defined.

(** ** The media-type filter *)

Section Filter.

Variable net : Network.
Variable token : str.

Lemma filter_on_false mt :
  filter_on mt = false <-> mt = None \/ mt = Some [].
Proof.
  destruct mt as [[|c m]|]; simpl; split; intros H; try done; auto.
  by destruct H.
Qed.

(** Whatever the page holds, the [for] loop adds an item only when the
    filter is off or the item carries exactly the wanted media type. *)
Lemma append_items_only mt items : forall files out,
  append_items mt items files = Ok out ->
  forall x, x ∈ out ->
    x ∈ files \/ (x ∈ items /\ (filter_on mt = false \/ item_media_type x = mt)).
Proof.
  induction items as [|item rest IH]; intros files out Hrun x Hx.
  - simpl in Hrun. injection Hrun as <-. by left.
  - simpl in Hrun. destruct (filter_on mt) eqn:Hon.
    + destruct mt as [[|c m]|]; try discriminate.
      destruct item as [| | | | |d]; try discriminate.
      cbn [py_get default from_option] in Hrun. unfold id in Hrun.
      rewrite differs_from_keeps in Hrun.
      destruct (bool_decide (item_media_type (VDict d) = Some (c :: m)))
        eqn:Hkeep; cbn [negb] in Hrun.
      * destruct (IH _ _ Hrun x Hx) as [Hin|[Hin Hp]].
        -- apply elem_of_app in Hin as [Hin|Hin]; [by left|].
           apply list_elem_of_singleton in Hin as ->. right. split.
           ++ apply list_elem_of_here.
           ++ right. by apply bool_decide_eq_true in Hkeep.
        -- right. split; [by apply list_elem_of_further|done].
      * destruct (IH _ _ Hrun x Hx) as [Hin|[Hin Hp]]; [by left|].
        right. split; [by apply list_elem_of_further|done].
    + destruct (IH _ _ Hrun x Hx) as [Hin|[Hin Hp]].
      * apply elem_of_app in Hin as [Hin|Hin]; [by left|].
        apply list_elem_of_singleton in Hin as ->. right. split; [|by left].
        apply list_elem_of_here.
      * right. split; [by apply list_elem_of_further|done].
Qed.

Lemma fetch_pages_only fuel : forall url mt files offset w out w',
  fetch_pages net token fuel url mt files offset w = (Ok out, w') ->
  forall x, x ∈ out ->
    x ∈ files \/ filter_on mt = false \/ item_media_type x = mt.
Proof.
  induction fuel as [|fuel IH]; intros url mt files offset w out w';
    [done|].
  rewrite fetch_pages_turn. cbv zeta.
  destruct (net _ _) as [|resp]; [done|].
  destruct (status_code resp =? 200);
    [|by intros [= <- <-] x Hx; left].
  destruct (response_json resp) as [data| |]; try done.
  destruct (py_get data _ _) as [embedded| |]; try done.
  destruct (py_get embedded _ _) as [items| |]; try done.
  destruct (negb (truthy items)); [by intros [= <- <-] x Hx; left|].
  destruct (py_iter items) as [page| |]; try done.
  destruct (append_items mt page files) as [files'| |] eqn:Happ; try done.
  intros Hrun x Hx.
  destruct (IH _ _ _ _ _ _ _ Hrun x Hx) as [Hin|Hp]; [|by right].
  destruct (append_items_only _ _ _ _ Happ x Hin) as [Hf|[_ Hp]];
    [by left|by right].
Qed.

End Filter.

(** C7. On the fetch path an item reaches the result only if the filter
    is unset ([None], or the empty string, which [if media_type] treats
    alike) or the item's own [media_type] field is exactly the filter;
    with no filter the result is every item of every page, in order. *)
Theorem C7_media_type_filter :
  (forall (net : Network) (token pk : str) (mt : option str) (fuel : nat)
          (w w' : World) (files : list value),
      cache_get (cache_key pk mt) w = (Ok None, w) ->
      get_files_from_public_link net token fuel pk mt w = (Ok files, w') ->
      forall item, item ∈ files ->
        mt = None \/ mt = Some [] \/ item_media_type item = mt)
  /\ (forall (net : Network) (token pk : str) (pages : list (list value))
             (fuel : nat) (w : World),
        cache_get (cache_key pk None) w = (Ok None, w) ->
        (length pages < fuel)%nat ->
        (forall i items, pages !! i = Some items ->
           items <> []
           /\ page_items (page_reply net token pk (trace w) 0 i) = Some items) ->
        page_items (page_reply net token pk (trace w) 0 (length pages))
          = Some [] ->
        fst (get_files_from_public_link net token fuel pk None w)
          = Ok (concat pages)).
Proof.
  split.
  - intros net token pk mt fuel w w' files Hmiss Hrun item Hin.
    rewrite get_files_miss in Hrun by done.
    destruct (fetch_pages _ _ _ _ _ _ _ _) as [[out| |] w1] eqn:Hloop;
      try discriminate.
    injection Hrun as <- _.
    destruct (fetch_pages_only _ _ _ _ _ _ _ _ _ _ Hloop item Hin)
      as [Hnil|[Hoff|Hp]].
    + by apply elem_of_nil in Hnil.
    + apply filter_on_false in Hoff as [->| ->]; auto.
    + auto.
  - intros net token pk pages fuel w Hmiss Hfuel Hpages Hstop.
    rewrite (get_files_run net token fuel pk None w pages); auto.
    + simpl. f_equal. induction (concat pages) as [|x l IH]; [done|].
      simpl. by rewrite IH.
    + intros i items Hi. destruct (Hpages i items Hi). done.
Qed.

Lemma C7_media_type_filter_witness :
  (forall item,
      item ∈ List.filter (keeps (Some (py "image"))) items125 ->
      Some (py "image") = None \/ Some (py "image") = Some []
      \/ item_media_type item = Some (py "image"))
  /\ fst (get_files_from_public_link (listing_api items125) tok 4 folder
            None w0)
     = Ok (concat [take 50 items125; take 50 (drop 50 items125);
                   drop 100 items125]).
Proof.
  split.
  - apply (proj1 C7_media_type_filter (listing_api items125) tok folder
             (Some (py "image")) 4%nat w0
             (snd (get_files_from_public_link (listing_api items125) tok 4
                     folder (Some (py "image")) w0))).
    + reflexivity.
    + by vm_compute.
  - apply (proj2 C7_media_type_filter (listing_api items125) tok folder
             [take 50 items125; take 50 (drop 50 items125); drop 100 items125]
             4%nat w0).
    + reflexivity.
    + simpl. lia.
    + intros [|[|[|i]]] items Hi; simpl in Hi; [| | |discriminate];
        injection Hi as <-; split; (discriminate || by vm_compute).
    + by vm_compute.
Defined.

(** C10. An empty-string filter is no filter: the paging loop run with
    [media_type = ""] is the loop run with [media_type = None], so every
    item of every fetched page is in the result. *)
Theorem C10_empty_filter_is_no_filter :
  (forall (net : Network) (token url : str) (fuel : nat)
          (files : list value) (offset : Z) (w : World),
      fetch_pages net token fuel url (Some []) files offset w
      = fetch_pages net token fuel url None files offset w)
  /\ (forall (net : Network) (token pk : str) (pages : list (list value))
             (fuel : nat) (w : World),
        cache_get (cache_key pk (Some [])) w = (Ok None, w) ->
        (length pages < fuel)%nat ->
        (forall i items, pages !! i = Some items ->
           items <> []
           /\ page_items (page_reply net token pk (trace w) 0 i) = Some items) ->
        page_items (page_reply net token pk (trace w) 0 (length pages))
          = Some [] ->
        fst (get_files_from_public_link net token fuel pk (Some []) w)
          = Ok (concat pages)).
Proof.
  split.
  - intros net token url fuel.
    induction fuel as [|fuel IH]; intros files offset w; [done|].
    rewrite !fetch_pages_turn. cbv zeta.
    destruct (net _ _) as [|resp]; [done|].
    destruct (status_code resp =? 200); [|done].
    destruct (response_json resp) as [data| |]; try done.
    destruct (py_get data _ _) as [embedded| |]; try done.
    destruct (py_get embedded _ _) as [items| |]; try done.
    destruct (negb (truthy items)); [done|].
    destruct (py_iter items) as [page| |]; try done.
    rewrite !append_items_off by done. apply IH.
  - intros net token pk pages fuel w Hmiss Hfuel Hpages Hstop.
    rewrite (get_files_run net token fuel pk (Some []) w pages); auto.
    + simpl. f_equal. induction (concat pages) as [|x l IH]; [done|].
      simpl. by rewrite IH.
    + intros i items Hi. destruct (Hpages i items Hi). done.
Qed.

Lemma C10_empty_filter_is_no_filter_witness :
  fst (get_files_from_public_link (listing_api items125) tok 4 folder
         (Some []) w0)
  = Ok (concat [take 50 items125; take 50 (drop 50 items125);
                drop 100 items125]).
Proof.
  apply (proj2 C10_empty_filter_is_no_filter (listing_api items125) tok
           folder
           [take 50 items125; take 50 (drop 50 items125); drop 100 items125]
           4%nat w0).
  - reflexivity.
  - simpl. lia.
  - intros [|[|[|i]]] items Hi; simpl in Hi; [| | |discriminate];
      injection Hi as <-; split; (discriminate || by vm_compute).
  - by vm_compute.
Defined.

(** ** The result cache *)



(** The sequence left by an early termination is stored like any other. *)
Example early_termination_is_cached :
  cache (snd (get_files_from_public_link (flaky_listing_api items150) tok 2
                folder None w0)) !! cache_key folder None
  = Some (mkEntry (take 50 items150) 3600).
Proof. vm_compute. reflexivity. Qed.

(** ** Link resolution *)

Section Links.

Variable net : Network.
Variable token : str.

(** What the caller gets from the reply to the link request. *)
Lemma link_of_reply_async pk fp w :
  get_download_link_async net token pk fp w =
  (match net (trace w) (link_request token pk fp) with
   | NoReply => Raise TransportError
   | Answer resp =>
       if status_code resp =? 200 then
         match json resp with
         | Some (VDict d) => Ok (default (VStr []) (lookup_field (py "href") d))
         | Some _ => Raise AttributeError
         | None => Raise JSONDecodeError
         end
       else Ok (VStr [])
   end,
   sent (link_request token pk fp) w).
Proof.
  unfold get_download_link_async, bind at 1. unfold http_get.
  fold (link_request token pk fp).
  destruct (net _ _) as [|resp]; [done|].
  destruct (status_code resp =? 200); [|done].
  unfold bind, lift, response_json.
  by destruct (json resp) as [[| | | | |d]|].
Qed.

Lemma link_of_reply_blocking pk fp enc w :
  quote_plus (drop 31 fp) = Ok enc ->
  get_download_link net token pk fp w =
  (match net (trace w) (blocking_request token pk fp enc) with
   | NoReply => Raise TransportError
   | Answer resp =>
       if status_code resp =? 200 then
         match json resp with
         | Some (VDict d) => Ok (default (VStr []) (lookup_field (py "href") d))
         | Some _ => Raise AttributeError
         | None => Raise JSONDecodeError
         end
       else Ok (VStr [])
   end,
   sent (blocking_request token pk fp enc) w).
Proof.
  intros Henc. unfold get_download_link, bind at 1. unfold lift at 1.
  rewrite Henc. unfold bind at 1. unfold http_get.
  fold (blocking_request token pk fp enc).
  destruct (net _ _) as [|resp]; [done|].
  destruct (status_code resp =? 200); [|done].
  unfold bind, lift, response_json.
  by destruct (json resp) as [[| | | | |d]|].
Qed.

End Links.




(** ** Archives of remote files *)

Section RemoteArchive.

Variable net : Network.
Variable token : str.

Lemma zip_from_yandex_run pk paths : forall outs zip_file w,
  archive_steps net token pk (trace w) paths outs ->
  zip_from_yandex net token pk paths zip_file w
  = (Ok (zip_file ++ written paths outs),
     mkWorld (trace w ++ concat (map snd outs)) (cache w) (now w)).
Proof.
  induction paths as [|p paths IH]; intros [|[o reqs] outs] zip_file w Hsteps;
    try done.
  - simpl. rewrite !app_nil_r. by destruct w.
  - destruct Hsteps as [Hstep Hrest].
    cbn [zip_from_yandex]. unfold bind at 1.
    rewrite link_of_reply_async.
    inversion Hstep as [resp d target data_resp Hrep Hst Hj Hh Hne Hdata Hok
                       |resp d target data_resp Hrep Hst Hj Hh Hne Hdata Hko
                       |resp Hrep Hst
                       |resp d Hrep Hst Hj Hfalsy]; subst; rewrite Hrep.
    + rewrite Hst, Hj, Hh. cbn [Z.eqb Pos.eqb default from_option]. unfold id.
      destruct target as [|c target]; [done|]. cbn [truthy bool_decide].
      rewrite bool_decide_eq_false_2 by done. cbn [negb].
      unfold bind at 1, lift at 1, as_url. unfold bind at 1, http_get.
      cbn [trace sent]. rewrite Hdata, Hok. cbn [Z.eqb Pos.eqb].
      etrans; [apply (IH outs); cbn [trace sent]; by rewrite <- app_assoc|].
      cbn [trace cache now sent written concat map snd].
      by rewrite <- !app_assoc.
    + rewrite Hst, Hj, Hh. cbn [Z.eqb Pos.eqb default from_option]. unfold id.
      destruct target as [|c target]; [done|]. cbn [truthy bool_decide].
      rewrite bool_decide_eq_false_2 by done. cbn [negb].
      unfold bind at 1, lift at 1, as_url. unfold bind at 1, http_get.
      cbn [trace sent]. rewrite Hdata.
      rewrite (proj2 (Z.eqb_neq _ _) Hko).
      etrans; [apply (IH outs); cbn [trace sent]; by rewrite <- app_assoc|].
      cbn [trace cache now sent written concat map snd].
      by rewrite <- !app_assoc.
    + rewrite (proj2 (Z.eqb_neq _ _) Hst). cbn [truthy bool_decide negb].
      etrans; [by apply (IH outs)|].
      cbn [trace cache now sent written concat map snd].
      by rewrite <- !app_assoc.
    + rewrite Hst, Hj. cbn [Z.eqb Pos.eqb]. rewrite Hfalsy.
      etrans; [by apply (IH outs)|].
      cbn [trace cache now sent written concat map snd].
      by rewrite <- !app_assoc.
Qed.

End RemoteArchive.



(** ** Archives of local files *)

Section LocalArchive.

Variable zip_encode : list ZipEntry -> list Byte.byte.
Variable root : str.
Variable disk : str -> option (list Byte.byte).

(** What one path contributes: its base name and the bytes found under
    the media root, or nothing. *)
Lemma zip_from_disk_run paths : forall zip_file,
  zip_from_disk root disk paths zip_file
  = zip_file ++
    flat_map (fun p =>
                match disk (os_path_join root (lstrip_sep p)) with
                | Some data => [(os_path_basename p, data)]
                | None => []
                end) paths.
Proof.
  induction paths as [|p paths IH]; intros zip_file; simpl.
  - by rewrite app_nil_r.
  - destruct (disk _) as [data|]; rewrite IH; [|done].
    by rewrite <- app_assoc.
Qed.



End LocalArchive.



(** ** The multi-file download view *)

(** C9. A POST without selected files is answered with status 400 and
    the world is left as it was, so nothing was requested; any method
    other than POST is answered with status 405, again with the world
    untouched. *)
Theorem C9_empty_selection_and_wrong_method :
  (forall (net : Network) (token : str)
          (zip_encode : list ZipEntry -> list Byte.byte)
          (request : HttpRequest) (pk : str) (w : World),
      method request = py "POST" ->
      getlist (py "files") (POST request) = [] ->
      exists msg,
        download_multiple_files net token zip_encode request pk w
        = (Ok (mkHttpResponse 400 (Text msg) None []), w))
  /\ (forall (net : Network) (token : str)
             (zip_encode : list ZipEntry -> list Byte.byte)
             (request : HttpRequest) (pk : str) (w : World),
        method request <> py "POST" ->
        exists msg,
          download_multiple_files net token zip_encode request pk w
          = (Ok (mkHttpResponse 405 (Text msg) None []), w)).
Proof.
  split.
  - intros net token zip_encode request pk w Hpost Hnone.
    unfold download_multiple_files.
    rewrite bool_decide_eq_true_2 by done. rewrite Hnone. by eexists.
  - intros net token zip_encode request pk w Hother.
    unfold download_multiple_files.
    rewrite bool_decide_eq_false_2 by done. by eexists.
Qed.

Lemma C9_empty_selection_and_wrong_method_witness :
  (exists msg,
      download_multiple_files (listing_api items125) tok stored_encode
        (mkHttpRequest (py "POST") [(py "csrfmiddlewaretoken", py "t")])
        folder w0
      = (Ok (mkHttpResponse 400 (Text msg) None []), w0))
  /\ (exists msg,
        download_multiple_files (listing_api items125) tok stored_encode
          (mkHttpRequest (py "GET") []) folder w0
        = (Ok (mkHttpResponse 405 (Text msg) None []), w0)).
Proof.
  split.
  - apply (proj1 C9_empty_selection_and_wrong_method); by vm_compute.
  - apply (proj2 C9_empty_selection_and_wrong_method). by vm_compute.
Defined.

(** * Further properties of the code *)

(** ** The blocking resolver: what reaches the URL *)

Lemma quote_plus_nil : quote_plus [] = Ok [].
Proof. reflexivity. Qed.

(** A path of at most 31 characters goes whole into the key: the
    blocking resolver asks for an empty path under the key
    [public_key ++ "//" ++ file_path]. *)
Theorem short_path_is_sent_as_key :
  forall (net : Network) (token pk fp : str) (w : World),
    (length fp <= 31)%nat ->
    trace (snd (get_download_link net token pk fp w))
    = trace w ++
      [mkRequest
         (YANDEX_DISK_API_URL ++ py "/download?public_key=" ++ pk
            ++ py "//" ++ fp ++ py "&path=")
         [] (auth_headers token)].
Proof.
  intros net token pk fp w Hlen.
  rewrite (link_of_reply_blocking net token pk fp []).
  - cbn [snd sent trace]. unfold blocking_request.
    rewrite take_ge by done. by rewrite <- !app_assoc, app_nil_r.
  - rewrite drop_ge by done. apply quote_plus_nil.
Qed.

Lemma short_path_is_sent_as_key_witness :
  trace (snd (get_download_link garbled_api tok folder (py "docs/a.txt") w0))
  = trace w0 ++
    [mkRequest
       (YANDEX_DISK_API_URL ++ py "/download?public_key=" ++ folder
          ++ py "//" ++ py "docs/a.txt" ++ py "&path=")
       [] (auth_headers tok)].
Proof.
  apply (short_path_is_sent_as_key garbled_api tok folder (py "docs/a.txt") w0).
  vm_compute. lia.
Defined.

(** Bytes of a UTF-8 encoding are below 256. *)
Lemma lor_lt_256 a b : (a < 256 -> b < 256 -> N.lor a b < 256)%N.
Proof.
  intros Ha Hb. destruct (N.eq_dec (N.lor a b) 0%N) as [->|Hnz]; [lia|].
  change 256%N with (2 ^ 8)%N. apply N.log2_lt_pow2; [lia|].
  rewrite N.log2_lor.
  destruct (N.eq_dec a 0%N) as [->|Ha0], (N.eq_dec b 0%N) as [->|Hb0].
  - done.
  - rewrite N.max_r by (simpl; lia).
    apply N.log2_lt_pow2; [lia|]. done.
  - rewrite N.max_l by (simpl; lia).
    apply N.log2_lt_pow2; [lia|]. done.
  - apply N.max_lub_lt; apply N.log2_lt_pow2; (lia || done).
Qed.

Lemma land_63_lt x : (N.land x 63 < 64)%N.
Proof.
  change 63%N with (N.ones 6). rewrite N.land_ones.
  apply N.mod_lt. done.
Qed.

Lemma shiftr_lt c k n : (c < n * 2 ^ k -> N.shiftr c k < n)%N.
Proof.
  intros Hc. rewrite N.shiftr_div_pow2.
  apply N.Div0.div_lt_upper_bound. lia.
Qed.

Lemma utf8_encode_char_bytes c bs :
  utf8_encode_char c = Some bs -> Forall (fun b => (b < 256)%N) bs.
Proof.
  unfold utf8_encode_char.
  destruct (c <? 128)%N eqn:H1.
  { intros [= <-]. apply N.ltb_lt in H1. repeat constructor. lia. }
  destruct (c <? 2048)%N eqn:H2.
  { intros [= <-]. apply N.ltb_lt in H2.
    repeat constructor; apply lor_lt_256; try done.
    - pose proof (shiftr_lt c 6 32). lia.
    - pose proof (land_63_lt c). lia. }
  destruct (c <? 65536)%N eqn:H3.
  { destruct ((55296 <=? c) && (c <=? 57343))%N; [done|].
    intros [= <-]. apply N.ltb_lt in H3.
    repeat constructor; apply lor_lt_256; try done.
    - pose proof (shiftr_lt c 12 16). lia.
    - pose proof (land_63_lt (N.shiftr c 6)). lia.
    - pose proof (land_63_lt c). lia. }
  destruct (c <? 1114112)%N eqn:H4; [|done].
  intros [= <-]. apply N.ltb_lt in H4.
  repeat constructor; apply lor_lt_256; try done.
  - pose proof (shiftr_lt c 18 5). lia.
  - pose proof (land_63_lt (N.shiftr c 12)). lia.
  - pose proof (land_63_lt (N.shiftr c 6)). lia.
  - pose proof (land_63_lt c). lia.
Qed.

Lemma utf8_encode_bytes s bs :
  utf8_encode s = Some bs -> Forall (fun b => (b < 256)%N) bs.
Proof.
  revert bs. induction s as [|c s IH]; intros bs; simpl.
  - intros [= <-]. constructor.
  - destruct (utf8_encode_char c) as [b1|] eqn:Hc; [|done].
    destruct (utf8_encode s) as [b2|]; [|done].
    intros [= <-]. apply Forall_app. split; [|by apply IH].
    by apply (utf8_encode_char_bytes c).
Qed.


Lemma hex_digit_safe d : (d < 16)%N -> always_safe (hex_digit d) = true.
Proof.
  intros Hd.
  assert (Hall : forallb (fun n => always_safe (hex_digit (N.of_nat n)))
                   (seq 0 16) = true) by reflexivity.
  rewrite forallb_forall in Hall.
  rewrite <- (N2Nat.id d). apply Hall. apply in_seq. lia.
Qed.

Lemma quote_byte_alphabet b :
  (b < 256)%N ->
  Forall (fun c => always_safe c = true \/ c = 43%N \/ c = 37%N)
    (quote_byte b).
Proof.
  intros Hb. unfold quote_byte.
  destruct (always_safe b) eqn:Hs; [constructor; [auto|constructor]|].
  destruct (b =? 32)%N; [constructor; [auto|constructor]|].
  constructor; [auto|constructor; [|constructor; [|constructor]]];
    left; apply hex_digit_safe.
  - apply N.Div0.div_lt_upper_bound. lia.
  - apply N.mod_lt. done.
Qed.

Lemma quote_plus_alphabet s enc :
  quote_plus s = Ok enc ->
  Forall (fun c => always_safe c = true \/ c = 43%N \/ c = 37%N) enc.
Proof.
  unfold quote_plus. destruct (utf8_encode s) as [bs|] eqn:Hbs; [|done].
  intros [= <-]. apply utf8_encode_bytes in Hbs.
  induction Hbs as [|b bs Hb _ IH]; simpl; [constructor|].
  apply Forall_app. split; [by apply quote_byte_alphabet|done].
Qed.

(** The path the blocking resolver puts after [&path=] is made of ASCII
    letters, digits, [_.-~], [+] and [%] only: it holds no [&], [=],
    [/], [#], [?] and no space, so it cannot add to or cut short the
    query string. *)
Theorem encoded_path_cannot_break_the_query :
  forall (net : Network) (token pk fp enc : str) (w : World),
    quote_plus (drop 31 fp) = Ok enc ->
    trace (snd (get_download_link net token pk fp w))
      = trace w ++ [blocking_request token pk fp enc]
    /\ Forall (fun c => always_safe c = true \/ c = 43%N \/ c = 37%N) enc
    /\ Forall (fun c => c ∉ [38%N; 61%N; 47%N; 35%N; 63%N; 32%N]) enc.
Proof.
  intros net token pk fp enc w Henc.
  split; [by rewrite (link_of_reply_blocking net token pk fp enc)|].
  pose proof (quote_plus_alphabet _ _ Henc) as Hsafe.
  split; [done|].
  eapply Forall_impl; [exact Hsafe|].
  intros c Hc Hin.
  repeat (apply elem_of_cons in Hin as [->|Hin]);
    try (by apply elem_of_nil in Hin);
    destruct Hc as [Hc|[Hc|Hc]]; by vm_compute in Hc.
Qed.

Lemma encoded_path_cannot_break_the_query_witness :
  trace (snd (get_download_link garbled_api tok folder
                (py "0123456789012345678901234567890/a b&c=d.txt") w0))
    = trace w0 ++
      [blocking_request tok folder
         (py "0123456789012345678901234567890/a b&c=d.txt")
         (py "%2Fa+b%26c%3Dd.txt")]
  /\ Forall (fun c => always_safe c = true \/ c = 43%N \/ c = 37%N)
       (py "%2Fa+b%26c%3Dd.txt")
  /\ Forall (fun c => c ∉ [38%N; 61%N; 47%N; 35%N; 63%N; 32%N])
       (py "%2Fa+b%26c%3Dd.txt").
Proof.
  apply (encoded_path_cannot_break_the_query garbled_api tok folder
           (py "0123456789012345678901234567890/a b&c=d.txt")
           (py "%2Fa+b%26c%3Dd.txt") w0).
  by vm_compute.
Defined.

Lemma always_safe_ascii c : always_safe c = true -> (c < 128)%N.
Proof.
  unfold always_safe. intros H.
  repeat (apply orb_prop in H as [H|H]);
    try (apply andb_prop in H as [H1 H2]; apply N.leb_le in H1, H2; lia);
    apply N.eqb_eq in H; lia.
Qed.

Lemma utf8_encode_safe s :
  Forall (fun c => always_safe c = true) s -> utf8_encode s = Some s.
Proof.
  induction 1 as [|c s Hc _ IH]; [done|]. simpl.
  unfold utf8_encode_char.
  rewrite (proj2 (N.ltb_lt _ _) (always_safe_ascii c Hc)). by rewrite IH.
Qed.

Lemma quote_bytes_safe s :
  Forall (fun c => always_safe c = true) s -> flat_map quote_byte s = s.
Proof.
  induction 1 as [|c s Hc _ IH]; [done|]. simpl.
  unfold quote_byte at 1. rewrite Hc. simpl. by rewrite IH.
Qed.

Lemma quote_plus_safe s :
  Forall (fun c => always_safe c = true) s -> quote_plus s = Ok s.
Proof.
  intros Hs. unfold quote_plus.
  by rewrite utf8_encode_safe, quote_bytes_safe.
Qed.

(** When what follows character 31 is made of ASCII letters, digits and
    [_.-~] only, the blocking resolver sends it as it is. *)
Theorem plain_remainder_is_sent_unchanged :
  forall (net : Network) (token pk fp : str) (w : World),
    Forall (fun c => always_safe c = true) (drop 31 fp) ->
    trace (snd (get_download_link net token pk fp w))
    = trace w ++
      [mkRequest
         (YANDEX_DISK_API_URL ++ py "/download?public_key="
            ++ (pk ++ py "//" ++ take 31 fp) ++ py "&path=" ++ drop 31 fp)
         [] (auth_headers token)].
Proof.
  intros net token pk fp w Hsafe.
  by rewrite (link_of_reply_blocking net token pk fp (drop 31 fp))
    by (by apply quote_plus_safe).
Qed.

Lemma plain_remainder_is_sent_unchanged_witness :
  trace (snd (get_download_link garbled_api tok folder
                (py "0123456789012345678901234567890report-2024_v1.txt") w0))
  = trace w0 ++
    [mkRequest
       (YANDEX_DISK_API_URL ++ py "/download?public_key="
          ++ (folder ++ py "//"
                ++ take 31 (py "0123456789012345678901234567890report-2024_v1.txt"))
          ++ py "&path="
          ++ drop 31 (py "0123456789012345678901234567890report-2024_v1.txt"))
       [] (auth_headers tok)].
Proof.
  apply (plain_remainder_is_sent_unchanged garbled_api tok folder
           (py "0123456789012345678901234567890report-2024_v1.txt") w0).
  vm_compute. repeat (constructor; [reflexivity|]). constructor.
Defined.

(** ** The encoding of the path loses nothing *)

(** A number is its top bits and its six low bits. *)
Lemma split_low_six c :
  N.lor (N.shiftl (N.shiftr c 6) 6) (N.land c 63) = c.
Proof.
  apply N.bits_inj. intros n.
  rewrite N.lor_spec, N.land_spec. change 63%N with (N.ones 6).
  destruct (N.lt_ge_cases n 6) as [Hlo|Hhi].
  - rewrite N.shiftl_spec_low, N.ones_spec_low by done.
    by rewrite andb_true_r.
  - rewrite N.shiftl_spec_high', N.shiftr_spec', N.ones_spec_high by done.
    rewrite andb_false_r, orb_false_r. f_equal. lia.
Qed.

Lemma below_cases (P : N -> bool) (n : nat) :
  forallb (fun k => P (N.of_nat k)) (seq 0 n) = true ->
  forall x, (x < N.of_nat n)%N -> P x = true.
Proof.
  intros Hall x Hx. rewrite forallb_forall in Hall.
  rewrite <- (N2Nat.id x). apply Hall. apply in_seq. lia.
Qed.

Lemma continuation_byte y :
  (y < 64)%N -> N.land (N.lor 128 y) 63 = y.
Proof.
  intros Hy. apply N.eqb_eq.
  by apply (below_cases (fun y => N.land (N.lor 128 y) 63 =? y)%N 64).
Qed.

Lemma lead_byte_2 x :
  (x < 32)%N ->
  (N.lor 192 x <? 128)%N = false /\ (N.lor 192 x <? 224)%N = true
  /\ N.land (N.lor 192 x) 31 = x.
Proof.
  intros Hx.
  pose proof (below_cases
    (fun x => negb (N.lor 192 x <? 128) && (N.lor 192 x <? 224)
              && (N.land (N.lor 192 x) 31 =? x))%N 32 eq_refl x Hx) as H.
  apply andb_prop in H as [[H1 H2]%andb_prop H3].
  apply negb_true_iff in H1. by apply N.eqb_eq in H3.
Qed.

Lemma lead_byte_3 x :
  (x < 16)%N ->
  (N.lor 224 x <? 128)%N = false /\ (N.lor 224 x <? 224)%N = false
  /\ (N.lor 224 x <? 240)%N = true /\ N.land (N.lor 224 x) 15 = x.
Proof.
  intros Hx.
  pose proof (below_cases
    (fun x => negb (N.lor 224 x <? 128) && negb (N.lor 224 x <? 224)
              && (N.lor 224 x <? 240)
              && (N.land (N.lor 224 x) 15 =? x))%N 16 eq_refl x Hx) as H.
  apply andb_prop in H as [[[H1 H2]%andb_prop H3]%andb_prop H4].
  apply negb_true_iff in H1, H2. by apply N.eqb_eq in H4.
Qed.

Lemma lead_byte_4 x :
  (x < 8)%N ->
  (N.lor 240 x <? 128)%N = false /\ (N.lor 240 x <? 224)%N = false
  /\ (N.lor 240 x <? 240)%N = false /\ N.land (N.lor 240 x) 7 = x.
Proof.
  intros Hx.
  pose proof (below_cases
    (fun x => negb (N.lor 240 x <? 128) && negb (N.lor 240 x <? 224)
              && negb (N.lor 240 x <? 240)
              && (N.land (N.lor 240 x) 7 =? x))%N 8 eq_refl x Hx) as H.
  apply andb_prop in H as [[[H1 H2]%andb_prop H3]%andb_prop H4].
  apply negb_true_iff in H1, H2, H3. by apply N.eqb_eq in H4.
Qed.

Lemma shiftr_shiftr_6 c k : N.shiftr (N.shiftr c k) 6 = N.shiftr c (k + 6).
Proof. apply N.shiftr_shiftr. Qed.

(** Decoding undoes the encoding of one code point. *)
Lemma utf8_decode_char c bs rest :
  utf8_encode_char c = Some bs ->
  utf8_decode (bs ++ rest) = c :: utf8_decode rest.
Proof.
  unfold utf8_encode_char.
  destruct (c <? 128)%N eqn:H1.
  { intros [= <-]. simpl. by rewrite H1. }
  destruct (c <? 2048)%N eqn:H2.
  { intros [= <-]. apply N.ltb_lt in H2.
    destruct (lead_byte_2 (N.shiftr c 6)) as (L1 & L2 & L3);
      [apply (shiftr_lt c 6 32); lia|].
    cbn [app utf8_decode]. rewrite L1, L2, L3.
    rewrite continuation_byte by apply land_63_lt.
    by rewrite split_low_six. }
  destruct (c <? 65536)%N eqn:H3.
  { destruct ((55296 <=? c) && (c <=? 57343))%N; [done|].
    intros [= <-]. apply N.ltb_lt in H3.
    destruct (lead_byte_3 (N.shiftr c 12)) as (L1 & L2 & L3 & L4);
      [apply (shiftr_lt c 12 16); lia|].
    cbn [app utf8_decode]. rewrite L1, L2, L3, L4.
    rewrite !continuation_byte by apply land_63_lt.
    rewrite <- (split_low_six c) at 4.
    rewrite <- (split_low_six (N.shiftr c 6)) at 2.
    rewrite (shiftr_shiftr_6 c 6). rewrite N.shiftl_lor, N.shiftl_shiftl.
    by rewrite N.lor_assoc. }
  destruct (c <? 1114112)%N eqn:H4; [|done].
  intros [= <-]. apply N.ltb_lt in H4.
  destruct (lead_byte_4 (N.shiftr c 18)) as (L1 & L2 & L3 & L4).
  { pose proof (shiftr_lt c 18 5). lia. }
  cbn [app utf8_decode]. rewrite L1, L2, L3, L4.
  rewrite !continuation_byte by apply land_63_lt.
  rewrite <- (split_low_six c) at 5.
  rewrite <- (split_low_six (N.shiftr c 6)) at 2.
  rewrite <- (split_low_six (N.shiftr (N.shiftr c 6) 6)) at 1.
  rewrite !shiftr_shiftr_6. rewrite !N.shiftl_lor, !N.shiftl_shiftl.
  by rewrite !N.lor_assoc.
Qed.

Lemma utf8_decode_encode s : forall bs,
  utf8_encode s = Some bs -> utf8_decode bs = s.
Proof.
  induction s as [|c s IH]; intros bs; simpl.
  - by intros [= <-].
  - destruct (utf8_encode_char c) as [b1|] eqn:Hc; [|done].
    destruct (utf8_encode s) as [b2|]; [|done].
    intros [= <-]. rewrite (utf8_decode_char c b1 b2 Hc). f_equal. by apply IH.
Qed.

Lemma unhex_hex_digit d : (d < 16)%N -> unhex (hex_digit d) = d.
Proof.
  intros Hd. apply N.eqb_eq.
  by apply (below_cases (fun d => unhex (hex_digit d) =? d)%N 16).
Qed.

Lemma always_safe_not_marker b :
  always_safe b = true -> (b =? 37)%N = false /\ (b =? 43)%N = false.
Proof.
  intros Hs. split; apply N.eqb_neq; intros ->; by vm_compute in Hs.
Qed.

Lemma unquote_quote_byte b rest :
  (b < 256)%N -> unquote_bytes (quote_byte b ++ rest) = b :: unquote_bytes rest.
Proof.
  intros Hb. unfold quote_byte.
  destruct (always_safe b) eqn:Hs.
  - destruct (always_safe_not_marker b Hs) as [H37 H43].
    cbn [app unquote_bytes]. by rewrite H37, H43.
  - destruct (b =? 32)%N eqn:H32.
    + apply N.eqb_eq in H32 as ->. reflexivity.
    + cbn [app unquote_bytes]. rewrite N.eqb_refl.
      rewrite !unhex_hex_digit.
      * f_equal. symmetry. apply N.div_mod'.
      * apply N.mod_lt. done.
      * apply N.Div0.div_lt_upper_bound. lia.
Qed.

Lemma unquote_quote_bytes bs :
  Forall (fun b => (b < 256)%N) bs ->
  unquote_bytes (flat_map quote_byte bs) = bs.
Proof.
  induction 1 as [|b bs Hb _ IH]; [done|]. simpl.
  by rewrite unquote_quote_byte, IH.
Qed.

(** [quote_plus] never maps two texts to the same encoding. *)
Lemma quote_plus_inj s1 s2 enc :
  quote_plus s1 = Ok enc -> quote_plus s2 = Ok enc -> s1 = s2.
Proof.
  unfold quote_plus.
  destruct (utf8_encode s1) as [b1|] eqn:H1; [|done].
  destruct (utf8_encode s2) as [b2|] eqn:H2; [|done].
  intros [= <-] [= Heq].
  apply (f_equal unquote_bytes) in Heq.
  rewrite !unquote_quote_bytes in Heq by by eapply utf8_encode_bytes.
  subst b2. rewrite <- (utf8_decode_encode s1 b1 H1).
  by rewrite <- (utf8_decode_encode s2 b1 H2).
Qed.

Lemma quote_plus_nil_inv s : quote_plus s = Ok [] -> s = [].
Proof. intros H. by apply (quote_plus_inj s [] []). Qed.

Lemma url_blocking_request token pk fp enc :
  url (blocking_request token pk fp enc)
  = YANDEX_DISK_API_URL ++ py "/download?public_key="
      ++ (pk ++ py "//" ++ take 31 fp) ++ py "&path=" ++ enc.
Proof. reflexivity. Qed.

(** For one public key, the blocking resolver never sends the same URL
    for two different file paths: the 31-character prefix is sent as it
    is, the remainder through an encoding that loses nothing, and the
    [&path=] mark stands at a place fixed by the length of the prefix. *)
Theorem blocking_url_determines_the_path :
  forall (token pk fp1 fp2 enc1 enc2 : str),
    quote_plus (drop 31 fp1) = Ok enc1 ->
    quote_plus (drop 31 fp2) = Ok enc2 ->
    url (blocking_request token pk fp1 enc1)
    = url (blocking_request token pk fp2 enc2) ->
    fp1 = fp2.
Proof.
  intros token pk fp1 fp2 enc1 enc2 H1 H2 Hurl.
  rewrite !url_blocking_request in Hurl.
  apply app_inv_head in Hurl. apply app_inv_head in Hurl.
  rewrite <- !app_assoc in Hurl.
  apply app_inv_head in Hurl. apply app_inv_head in Hurl.
  revert Hurl. generalize (py "&path="). intros mark Hurl.
  assert (Hshort : forall fp enc,
            quote_plus (drop 31 fp) = Ok enc ->
            (length (take 31 fp) < 31)%nat -> enc = []).
  { intros fp enc Hq Hlen. rewrite length_take in Hlen.
    apply Nat.min_lt_iff in Hlen as [Hlen|Hlen]; [lia|].
    rewrite drop_ge in Hq by lia. by injection Hq as <-. }
  assert (Hlong : forall fp enc,
            quote_plus (drop 31 fp) = Ok enc -> enc = [] ->
            take 31 fp = fp).
  { intros fp enc Hq ->. apply quote_plus_nil_inv in Hq.
    rewrite <- (take_drop 31 fp) at 2. by rewrite Hq, app_nil_r. }
  pose proof (f_equal length Hurl) as Hlen. rewrite !length_app in Hlen.
  destruct (decide (length (take 31 fp1) = length (take 31 fp2))) as [Heq|Hne].
  - apply app_inj_1 in Hurl as [Htake Hrest]; [|done].
    apply app_inv_head in Hrest. subst enc2.
    rewrite <- (take_drop 31 fp1), <- (take_drop 31 fp2), Htake.
    f_equal. by apply (quote_plus_inj _ _ enc1).
  - assert (Hb : forall fp : str, (length (take 31 fp) <= 31)%nat)
      by (intros; rewrite length_take; apply Nat.le_min_l).
    pose proof (Hb fp1). pose proof (Hb fp2). exfalso.
    destruct (decide (length (take 31 fp1) < length (take 31 fp2))%nat).
    + rewrite (Hshort fp1 enc1) in Hlen by (done || lia).
      cbn [length] in Hlen. lia.
    + rewrite (Hshort fp2 enc2) in Hlen by (done || lia).
      cbn [length] in Hlen. lia.
Qed.

Lemma blocking_url_determines_the_path_witness :
  py "0123456789012345678901234567890/a b.txt"
  = py "0123456789012345678901234567890/a b.txt".
Proof.
  apply (blocking_url_determines_the_path tok folder
           (py "0123456789012345678901234567890/a b.txt")
           (py "0123456789012345678901234567890/a b.txt")
           (py "%2Fa+b.txt") (py "%2Fa+b.txt")); by vm_compute.
Defined.

(** ** Listing: what holds against any remote side *)

Section ListingAnyServer.

Variable net : Network.
Variable token : str.

Lemma page_requests_succ pk k n :
  page_requests token pk k (S n)
  = page_request token pk k :: page_requests token pk (S k) n.
Proof. reflexivity. Qed.

Lemma fetch_pages_requests pk mt fuel : forall files k w,
  exists n, (n <= fuel)%nat
    /\ trace (snd (fetch_pages net token fuel
                     (YANDEX_DISK_API_URL ++ py "?public_key=" ++ pk) mt
                     files (50 * Z.of_nat k) w))
       = trace w ++ page_requests token pk k n.
Proof.
  induction fuel as [|fuel IH]; intros files k w.
  - exists 0%nat. split; [done|]. simpl. by rewrite app_nil_r.
  - assert (Hone : trace (sent (turn_request token
                      (YANDEX_DISK_API_URL ++ py "?public_key=" ++ pk)
                      (50 * Z.of_nat k)) w)
                   = trace w ++ page_requests token pk k 1).
    { by rewrite <- page_request_turn. }
    rewrite fetch_pages_turn. cbv zeta.
    destruct (net _ _) as [|resp]; [exists 1%nat; split; [lia|done]|].
    destruct (status_code resp =? 200);
      [|exists 1%nat; split; [lia|done]].
    destruct (response_json resp) as [data| |];
      try (exists 1%nat; split; [lia|done]).
    destruct (py_get data _ _) as [embedded| |];
      try (exists 1%nat; split; [lia|done]).
    destruct (py_get embedded _ _) as [items| |];
      try (exists 1%nat; split; [lia|done]).
    destruct (negb (truthy items)); [exists 1%nat; split; [lia|done]|].
    destruct (py_iter items) as [page| |];
      try (exists 1%nat; split; [lia|done]).
    destruct (append_items mt page files) as [files'| |];
      try (exists 1%nat; split; [lia|done]).
    replace (50 * Z.of_nat k + limit) with (50 * Z.of_nat (S k))
      by (unfold limit; lia).
    destruct (IH files' (S k)
                (sent (turn_request token
                         (YANDEX_DISK_API_URL ++ py "?public_key=" ++ pk)
                         (50 * Z.of_nat k)) w)) as (n & Hn & Htrace).
    exists (S n). split; [lia|].
    rewrite Htrace, page_requests_succ, <- page_request_turn.
    unfold sent. cbn [trace]. by rewrite <- app_assoc.
Qed.

End ListingAnyServer.

(** Whatever the remote side answers and however the call ends, the
    requests of one call are the requests for pages 0, 1, ..., n-1 in
    this order: same URL, [limit] 50, offsets 0, 50, 100, ... *)
Theorem listing_requests_are_consecutive_pages :
  forall (net : Network) (token pk : str) (mt : option str) (fuel : nat)
         (w : World),
    exists n, (n <= fuel)%nat
      /\ trace (snd (get_files_from_public_link net token fuel pk mt w))
         = trace w ++ page_requests token pk 0 n.
Proof.
  intros net token pk mt fuel w.
  destruct (cache_get (cache_key pk mt) w) as [[[files|]| |] w1] eqn:Hget;
    pose proof (cache_get_world (cache_key pk mt) w) as Hw;
    rewrite Hget in Hw; simpl in Hw; subst w1.
  - exists 0%nat. split; [lia|].
    rewrite (get_files_hit net token fuel pk mt w files Hget).
    simpl. by rewrite app_nil_r.
  - rewrite get_files_miss by done.
    destruct (fetch_pages_requests net token pk mt fuel [] 0 w)
      as (n & Hn & Htrace).
    exists n. split; [done|]. change (50 * Z.of_nat 0) with 0 in Htrace.
    by destruct (fetch_pages _ _ _ _ _ _ _ _) as [[?| |] ?].
  - unfold cache_get in Hget. destruct (cache w !! _) as [entry|]; [|done].
    by destruct (now w <? expires entry).
  - unfold cache_get in Hget. destruct (cache w !! _) as [entry|]; [|done].
    by destruct (now w <? expires entry).
Qed.

(** A call that ends in an exception leaves the cache as it was: only
    results are stored, never failures. *)
Theorem exceptions_are_not_cached :
  forall (net : Network) (token pk : str) (mt : option str) (fuel : nat)
         (w : World) (e : exn),
    fst (get_files_from_public_link net token fuel pk mt w) = Raise e ->
    cache (snd (get_files_from_public_link net token fuel pk mt w)) = cache w
    /\ now (snd (get_files_from_public_link net token fuel pk mt w)) = now w.
Proof.
  intros net token pk mt fuel w e.
  destruct (cache_get (cache_key pk mt) w) as [[[files|]| |] w1] eqn:Hget;
    pose proof (cache_get_world (cache_key pk mt) w) as Hw;
    rewrite Hget in Hw; simpl in Hw; subst w1.
  - by rewrite (get_files_hit net token fuel pk mt w files Hget).
  - rewrite get_files_miss by done.
    pose proof (fetch_pages_cache net token fuel
                  (YANDEX_DISK_API_URL ++ py "?public_key=" ++ pk) mt [] 0 w)
      as Hcache.
    pose proof (fetch_pages_now net token fuel
                  (YANDEX_DISK_API_URL ++ py "?public_key=" ++ pk) mt [] 0 w)
      as Hnow.
    by destruct (fetch_pages _ _ _ _ _ _ _ _) as [[?| |] ?].
  - unfold cache_get in Hget. destruct (cache w !! _) as [entry|]; [|done].
    by destruct (now w <? expires entry).
  - unfold cache_get in Hget. destruct (cache w !! _) as [entry|]; [|done].
    by destruct (now w <? expires entry).
Qed.

Lemma exceptions_are_not_cached_witness :
  cache (snd (get_files_from_public_link garbled_api tok 3 folder None w0))
    = cache w0
  /\ now (snd (get_files_from_public_link garbled_api tok 3 folder None w0))
     = now w0.
Proof.
  apply (exceptions_are_not_cached garbled_api tok folder None 3 w0
           JSONDecodeError).
  by vm_compute.
Defined.

(** The loop has no page limit of its own: against a remote side that
    answers every request with a non-empty page, a run of any length is
    still asking, one request per turn, and has returned nothing. *)
Theorem paging_has_no_page_limit :
  forall (net : Network) (token pk : str) (mt : option str),
    (forall h r, exists items,
        page_items (net h r) = Some items /\ items <> []
        /\ filterable mt items = true) ->
    forall (fuel : nat) (w : World),
      cache_get (cache_key pk mt) w = (Ok None, w) ->
      fst (get_files_from_public_link net token fuel pk mt w) = Unfinished
      /\ trace (snd (get_files_from_public_link net token fuel pk mt w))
         = trace w ++ page_requests token pk 0 fuel.
Proof.
  intros net token pk mt Hserve fuel w Hmiss.
  rewrite get_files_miss by done.
  assert (Hloop : forall fuel files k w,
            fetch_pages net token fuel
              (YANDEX_DISK_API_URL ++ py "?public_key=" ++ pk) mt files
              (50 * Z.of_nat k) w
            = (Unfinished,
               mkWorld (trace w ++ page_requests token pk k fuel)
                 (cache w) (now w))).
  { clear fuel w Hmiss. induction fuel as [|fuel IH]; intros files k w.
    - simpl. unfold lift. rewrite app_nil_r. by destruct w.
    - destruct (Hserve (trace w)
                  (turn_request token
                     (YANDEX_DISK_API_URL ++ py "?public_key=" ++ pk)
                     (50 * Z.of_nat k))) as (items & Hpage & Hne & Hok).
      rewrite (fetch_pages_page net token fuel _ mt files _ w items)
        by done.
      replace (50 * Z.of_nat k + limit) with (50 * Z.of_nat (S k))
        by (unfold limit; lia).
      rewrite IH, page_requests_succ, <- page_request_turn.
      unfold sent. cbn [trace cache now]. by rewrite <- app_assoc. }
  change 0 with (50 * Z.of_nat 0). by rewrite Hloop.
Qed.

Lemma paging_has_no_page_limit_witness :
  fst (get_files_from_public_link endless_api tok 9 folder None w0)
    = Unfinished
  /\ trace (snd (get_files_from_public_link endless_api tok 9 folder None w0))
     = trace w0 ++ page_requests tok folder 0 9.
Proof.
  apply (paging_has_no_page_limit endless_api tok folder None).
  - intros h r. exists [listing_item 0]. by vm_compute.
  - reflexivity.
Defined.

(** ** The cache key *)

Lemma py_underscore : py "_" = [95%N].
Proof. reflexivity. Qed.

(** A miss that returns leaves its result under the key of the call. *)
Lemma get_files_stored net token fuel pk mt w w1 files :
  cache_get (cache_key pk mt) w = (Ok None, w) ->
  get_files_from_public_link net token fuel pk mt w = (Ok files, w1) ->
  cache w1 = <[cache_key pk mt := mkEntry files (now w + 3600)]> (cache w).
Proof.
  intros Hmiss Hrun. rewrite get_files_miss in Hrun by done.
  pose proof (fetch_pages_cache net token fuel
                (YANDEX_DISK_API_URL ++ py "?public_key=" ++ pk) mt [] 0 w)
    as Hcache.
  pose proof (fetch_pages_now net token fuel
                (YANDEX_DISK_API_URL ++ py "?public_key=" ++ pk) mt [] 0 w)
    as Hnow.
  destruct (fetch_pages _ _ _ _ _ _ _ _) as [[out| |] w']; try discriminate.
  simpl in Hcache, Hnow. injection Hrun as -> <-.
  cbn [cache]. by rewrite Hcache, Hnow.
Qed.

(** A fresh entry under the key of a call answers the call. *)
Lemma get_files_served net token fuel pk mt w files expiry :
  cache w !! cache_key pk mt = Some (mkEntry files expiry) ->
  now w < expiry ->
  get_files_from_public_link net token fuel pk mt w = (Ok files, w).
Proof.
  intros Hentry Hfresh. apply get_files_hit.
  unfold cache_get. rewrite Hentry. cbn [expires cached].
  by rewrite (proj2 (Z.ltb_lt _ _) Hfresh).
Qed.

(** The key is the text [files_<public_key>_<media_type>], so different
    calls can share it: no filter and the filter ["None"], or a key and
    a filter that split the same text at another underscore.  A call
    whose key equals the key of an earlier call is answered, within the
    hour, with the listing stored by that earlier call, without any
    request. *)
Theorem calls_with_one_cache_key_share_the_listing :
  (forall pk, cache_key pk None = cache_key pk (Some (py "None")))
  /\ (forall a b c,
        cache_key (a ++ py "_" ++ b) (Some c)
        = cache_key a (Some (b ++ py "_" ++ c)))
  /\ (forall (net net2 : Network) (token pk1 pk2 : str)
             (mt1 mt2 : option str) (fuel fuel2 : nat) (w w1 w2 : World)
             (files : list value),
        cache_key pk1 mt1 = cache_key pk2 mt2 ->
        cache_get (cache_key pk1 mt1) w = (Ok None, w) ->
        get_files_from_public_link net token fuel pk1 mt1 w = (Ok files, w1) ->
        cache w2 !! cache_key pk1 mt1 = cache w1 !! cache_key pk1 mt1 ->
        now w2 < now w + 3600 ->
        get_files_from_public_link net2 token fuel2 pk2 mt2 w2
        = (Ok files, w2)).
Proof.
  split; [done|]. split.
  - intros a b c. unfold cache_key. by rewrite <- !app_assoc.
  - intros net net2 token pk1 pk2 mt1 mt2 fuel fuel2 w w1 w2 files
      Hkey Hmiss Hrun Hsame Hfresh.
    apply (get_files_served net2 token fuel2 pk2 mt2 w2 files (now w + 3600));
      [|done].
    rewrite <- Hkey, Hsame.
    rewrite (get_files_stored net token fuel pk1 mt1 w w1 files Hmiss Hrun).
    apply lookup_insert_eq.
Qed.

Lemma calls_with_one_cache_key_share_the_listing_witness :
  get_files_from_public_link garbled_api tok 0 folder (Some (py "None"))
    (mkWorld [] {[cache_key folder None := mkEntry items125 3600]} 1800)
  = (Ok items125,
     mkWorld [] {[cache_key folder None := mkEntry items125 3600]} 1800).
Proof.
  apply (proj2 (proj2 calls_with_one_cache_key_share_the_listing)
           (listing_api items125) garbled_api tok folder folder None
           (Some (py "None")) 4%nat 0%nat w0
           (snd (get_files_from_public_link (listing_api items125) tok 4
                   folder None w0))).
  - reflexivity.
  - reflexivity.
  - vm_compute. reflexivity.
  - vm_compute. reflexivity.
  - simpl. lia.
Defined.

Lemma split_at_first_mark (x : N) (a a' b b' : str) :
  x ∉ a -> x ∉ a' -> a ++ x :: b = a' ++ x :: b' -> a = a' /\ b = b'.
Proof.
  revert a'. induction a as [|c a IH]; intros [|c' a'] Ha Ha' Heq.
  - by injection Heq as ->.
  - injection Heq as <- _. exfalso. apply Ha'. apply list_elem_of_here.
  - injection Heq as -> _. exfalso. apply Ha. apply list_elem_of_here.
  - injection Heq as <- Heq.
    destruct (IH a') as [-> ->]; try done.
    + intros Hin. apply Ha. by apply list_elem_of_further.
    + intros Hin. apply Ha'. by apply list_elem_of_further.
Qed.

(** For public keys without an underscore the key text tells the calls
    apart, up to the one confusion of no filter with the filter
    ["None"]. *)
Theorem cache_key_tells_calls_apart :
  forall (pk pk' : str) (mt mt' : option str),
    95%N ∉ pk -> 95%N ∉ pk' ->
    mt <> Some (py "None") -> mt' <> Some (py "None") ->
    cache_key pk mt = cache_key pk' mt' ->
    pk = pk' /\ mt = mt'.
Proof.
  intros pk pk' mt mt' Hpk Hpk' Hmt Hmt' Hkey.
  unfold cache_key in Hkey. apply app_inv_head in Hkey.
  rewrite py_underscore in Hkey.
  change ([95%N] ++ ?t) with (95%N :: t) in Hkey.
  apply split_at_first_mark in Hkey as [-> Hsfx]; try done.
  split; [done|].
  destruct mt as [m|], mt' as [m'|]; try done; congruence.
Qed.

Lemma cache_key_tells_calls_apart_witness :
  folder = folder /\ Some (py "image") = Some (py "image").
Proof.
  apply (cache_key_tells_calls_apart folder folder (Some (py "image"))
           (Some (py "image"))); try (by vm_compute).
  - vm_compute. intros H. repeat (apply elem_of_cons in H as [H|H]; [done|]).
    by apply elem_of_nil in H.
  - vm_compute. intros H. repeat (apply elem_of_cons in H as [H|H]; [done|]).
    by apply elem_of_nil in H.
Defined.

(** An outage is remembered: when the first page is refused the empty
    listing is returned and stored, and for the next hour every call for
    the pair gets the empty listing without asking the remote side. *)
Theorem refused_first_page_is_cached_as_empty :
  forall (net net2 : Network) (token pk : str) (mt : option str)
         (fuel fuel2 : nat) (w w2 : World),
    cache_get (cache_key pk mt) w = (Ok None, w) ->
    (0 < fuel)%nat ->
    failed_status (net (trace w) (page_request token pk 0)) = true ->
    get_files_from_public_link net token fuel pk mt w
    = (Ok [],
       mkWorld (trace w ++ [page_request token pk 0])
         (<[cache_key pk mt := mkEntry [] (now w + 3600)]> (cache w))
         (now w))
    /\ (cache w2 !! cache_key pk mt
        = Some (mkEntry [] (now w + 3600)) ->
        now w2 < now w + 3600 ->
        get_files_from_public_link net2 token fuel2 pk mt w2 = (Ok [], w2)).
Proof.
  intros net net2 token pk mt fuel fuel2 w w2 Hmiss Hfuel Hfail. split.
  - rewrite (get_files_run net token fuel pk mt w []); try done.
    right. by rewrite page_reply_first.
  - intros Hentry Hfresh.
    by apply (get_files_served net2 token fuel2 pk mt w2 [] (now w + 3600)).
Qed.

Lemma refused_first_page_is_cached_as_empty_witness :
  get_files_from_public_link
    (fun _ _ => Answer (mkResponse 503 None [])) tok 5 folder None w0
  = (Ok [],
     mkWorld (trace w0 ++ [page_request tok folder 0])
       (<[cache_key folder None := mkEntry [] (now w0 + 3600)]> (cache w0))
       (now w0))
  /\ (cache (mkWorld [] {[cache_key folder None := mkEntry [] 3600]} 60)
        !! cache_key folder None
      = Some (mkEntry [] (now w0 + 3600)) ->
      now (mkWorld [] {[cache_key folder None := mkEntry [] 3600]} 60)
        < now w0 + 3600 ->
      get_files_from_public_link (listing_api items125) tok 4 folder None
        (mkWorld [] {[cache_key folder None := mkEntry [] 3600]} 60)
      = (Ok [], mkWorld [] {[cache_key folder None := mkEntry [] 3600]} 60)).
Proof.
  apply (refused_first_page_is_cached_as_empty
           (fun _ _ => Answer (mkResponse 503 None [])) (listing_api items125)
           tok folder None 5 4 w0
           (mkWorld [] {[cache_key folder None := mkEntry [] 3600]} 60)).
  - reflexivity.
  - lia.
  - reflexivity.
Defined.

(** ** Remote archives against any remote side *)

Section RemoteArchiveAnyServer.

Variable net : Network.
Variable token : str.

(** One turn of the archive loop, with the monad unfolded. *)
Lemma zip_from_yandex_turn pk p rest zip_file w :
  zip_from_yandex net token pk (p :: rest) zip_file w =
  let w1 := sent (link_request token pk p) w in
  match fst (get_download_link_async net token pk p w) with
  | Ok download_url =>
      if truthy download_url then
        match as_url download_url with
        | Ok target =>
            let w2 := sent (mkRequest target [] []) w1 in
            match net (trace w1) (mkRequest target [] []) with
            | NoReply => (Raise TransportError, w2)
            | Answer response =>
                if status_code response =? 200 then
                  zip_from_yandex net token pk rest
                    (zip_file ++ [(p, content response)]) w2
                else zip_from_yandex net token pk rest zip_file w2
            end
        | Raise e => (Raise e, w1)
        | Unfinished => (Unfinished, w1)
        end
      else zip_from_yandex net token pk rest zip_file w1
  | Raise e => (Raise e, w1)
  | Unfinished => (Unfinished, w1)
  end.
Proof.
  cbn [zip_from_yandex]. unfold bind at 1.
  rewrite link_of_reply_async. cbn [fst]. cbv zeta.
  destruct (match net (trace w) (link_request token pk p) with
            | NoReply => _ | Answer _ => _ end) as [download_url| |];
    try done.
  destruct (truthy download_url); [|done].
  unfold bind at 1, lift at 1.
  destruct (as_url download_url) as [target| |]; try done.
  unfold bind at 1, http_get.
  destruct (net _ _) as [|response]; [done|].
  by destruct (status_code response =? 200).
Qed.


(** Running a list of paths is running its front, then its back. *)
Lemma zip_from_yandex_app pk front back : forall zip_file w,
  zip_from_yandex net token pk (front ++ back) zip_file w =
  match zip_from_yandex net token pk front zip_file w with
  | (Ok zip_file', w') => zip_from_yandex net token pk back zip_file' w'
  | (Raise e, w') => (Raise e, w')
  | (Unfinished, w') => (Unfinished, w')
  end.
Proof.
  induction front as [|p front IH]; intros zip_file w; [done|].
  rewrite <- app_comm_cons, !zip_from_yandex_turn. cbv zeta.
  destruct (fst (get_download_link_async net token pk p w))
    as [download_url| |]; try done.
  destruct (truthy download_url); [|apply IH].
  destruct (as_url download_url) as [target| |]; try done.
  destruct (net _ _) as [|response]; [done|].
  destruct (status_code response =? 200); apply IH.
Qed.

End RemoteArchiveAnyServer.



(** A refused file is skipped, an unanswered request is not: when the
    remote side leaves the link request of some path, or the download
    that follows it, without a reply, the call raises and no archive is
    returned, whatever was fetched before. *)
Theorem unanswered_request_aborts_the_archive :
  (forall (net : Network) (token pk : str)
          (zip_encode : list ZipEntry -> list Byte.byte)
          (front : list str) (p : str) (back : list str)
          (outs : list (option (list Byte.byte) * list Request))
          (w : World),
      archive_steps net token pk (trace w) front outs ->
      net (trace w ++ concat (map snd outs)) (link_request token pk p)
        = NoReply ->
      fst (create_zip_archive_from_yandex net token zip_encode pk
             (front ++ p :: back) w)
      = Raise TransportError)
  /\ (forall (net : Network) (token pk : str)
             (zip_encode : list ZipEntry -> list Byte.byte)
             (front : list str) (p : str) (back : list str)
             (outs : list (option (list Byte.byte) * list Request))
             (w : World) (resp : Response) (d : list (str * value))
             (c : N) (target : str),
        archive_steps net token pk (trace w) front outs ->
        net (trace w ++ concat (map snd outs)) (link_request token pk p)
          = Answer resp ->
        status_code resp = 200 ->
        json resp = Some (VDict d) ->
        lookup_field (py "href") d = Some (VStr (c :: target)) ->
        net ((trace w ++ concat (map snd outs)) ++ [link_request token pk p])
          (mkRequest (c :: target) [] []) = NoReply ->
        fst (create_zip_archive_from_yandex net token zip_encode pk
               (front ++ p :: back) w)
        = Raise TransportError).
Proof.
  split.
  - intros net token pk zip_encode front p back outs w Hsteps Hlink.
    unfold create_zip_archive_from_yandex, bind.
    rewrite zip_from_yandex_app.
    rewrite (zip_from_yandex_run net token pk front outs [] w Hsteps).
    rewrite zip_from_yandex_turn. cbv zeta.
    rewrite link_of_reply_async. cbn [fst trace]. by rewrite Hlink.
  - intros net token pk zip_encode front p back outs w resp d c target
      Hsteps Hlink Hst Hj Hhref Hdata.
    unfold create_zip_archive_from_yandex, bind.
    rewrite zip_from_yandex_app.
    rewrite (zip_from_yandex_run net token pk front outs [] w Hsteps).
    rewrite zip_from_yandex_turn. cbv zeta.
    rewrite link_of_reply_async. cbn [fst trace sent].
    rewrite Hlink, Hst, Hj, Hhref.
    cbn [Z.eqb Pos.eqb default from_option]. unfold id. cbn [truthy].
    rewrite bool_decide_eq_false_2 by done. cbn [negb as_url].
    by rewrite Hdata.
Qed.

Lemma unanswered_request_aborts_the_archive_witness :
  fst (create_zip_archive_from_yandex
         (silent_on (link_request tok folder (py "b.txt")) archive_api) tok
         stored_encode folder ([py "a.txt"] ++ py "b.txt" :: [py "c.txt"]) w0)
    = Raise TransportError
  /\ fst (create_zip_archive_from_yandex
            (silent_on (mkRequest (py "https://dl/c") [] []) archive_api) tok
            stored_encode folder ([py "a.txt"] ++ py "c.txt" :: []) w0)
     = Raise TransportError.
Proof.
  split.
  - apply (proj1 unanswered_request_aborts_the_archive
             (silent_on (link_request tok folder (py "b.txt")) archive_api)
             tok folder stored_encode [py "a.txt"] (py "b.txt") [py "c.txt"]
             [(Some bytes_a, [link_request tok folder (py "a.txt");
                              mkRequest (py "https://dl/a") [] []])] w0).
    + split; [|done].
      apply (step_fetched _ _ tok folder (py "a.txt")
               (mkResponse 200
                  (Some (VDict [(py "href", VStr (py "https://dl/a"))])) [])
               [(py "href", VStr (py "https://dl/a"))] (py "https://dl/a")
               (mkResponse 200 None bytes_a)); by vm_compute.
    + by vm_compute.
  - refine (proj2 unanswered_request_aborts_the_archive
              (silent_on (mkRequest (py "https://dl/c") [] []) archive_api)
              tok folder stored_encode [py "a.txt"] (py "c.txt") []
              [(Some bytes_a, [link_request tok folder (py "a.txt");
                               mkRequest (py "https://dl/a") [] []])] w0
              (mkResponse 200
                 (Some (VDict [(py "href", VStr (py "https://dl/c"))])) [])
              [(py "href", VStr (py "https://dl/c"))]
              104%N (py "ttps://dl/c") _ _ _ _ _ _).
    + split; [|done].
      apply (step_fetched _ _ tok folder (py "a.txt")
               (mkResponse 200
                  (Some (VDict [(py "href", VStr (py "https://dl/a"))])) [])
               [(py "href", VStr (py "https://dl/a"))] (py "https://dl/a")
               (mkResponse 200 None bytes_a)); by vm_compute.
    + by vm_compute.
    + done.
    + done.
    + by vm_compute.
    + by vm_compute.
Defined.

(** ** The multi-file view, when files are selected *)



(** ** Local archives *)

Lemma lstrip_sep_idem p : lstrip_sep (lstrip_sep p) = lstrip_sep p.
Proof.
  induction p as [|c p IH]; [done|]. simpl.
  destruct (c =? sep)%N eqn:Hc; [done|]. simpl. by rewrite Hc.
Qed.

Lemma basename_lstrip_sep p :
  os_path_basename (lstrip_sep p) = os_path_basename p.
Proof.
  unfold os_path_basename. induction p as [|c p IH]; [done|]. simpl.
  destruct (c =? sep)%N eqn:Hc; [done|]. simpl. by rewrite Hc.
Qed.

(** Leading separators of a path never matter to the local builder. *)
Theorem leading_separators_do_not_matter :
  forall (zip_encode : list ZipEntry -> list Byte.byte) (root : str)
         (disk : str -> option (list Byte.byte)) (paths : list str),
    create_zip_archive zip_encode root disk paths
    = create_zip_archive zip_encode root disk (map lstrip_sep paths).
Proof.
  intros zip_encode root disk paths.
  unfold create_zip_archive, close_zip, seek. cbn [getvalue].
  rewrite !zip_from_disk_run. cbn [app]. do 2 f_equal.
  induction paths as [|p paths IH]; [done|]. cbn [map flat_map].
  by rewrite lstrip_sep_idem, basename_lstrip_sep, IH.
Qed.


Lemma basename_from_suffix n : forall acc,
  sep ∉ n -> basename_from n acc = acc ++ n.
Proof.
  induction n as [|c n IH]; intros acc Hn; simpl; [by rewrite app_nil_r|].
  destruct (c =? sep)%N eqn:Hc.
  - apply N.eqb_eq in Hc as ->. exfalso. apply Hn. apply list_elem_of_here.
  - rewrite IH, <- app_assoc; [done|].
    intros Hin. apply Hn. by apply list_elem_of_further.
Qed.

Lemma basename_from_app d n : forall acc,
  basename_from (d ++ sep :: n) acc = basename_from n [].
Proof.
  induction d as [|c d IH]; intros acc; simpl.
  - done.
  - destruct (c =? sep)%N; apply IH.
Qed.

(** The directory part of a path is dropped from the entry name. *)
Lemma basename_of_joined d n :
  sep ∉ n -> os_path_basename (d ++ sep :: n) = n.
Proof.
  intros Hn. unfold os_path_basename.
  by rewrite basename_from_app, basename_from_suffix.
Qed.


(** Two files of the same name in different directories end up as two
    entries of that one name. *)
Theorem same_name_in_two_directories_collides :
  forall (zip_encode : list ZipEntry -> list Byte.byte) (root d1 d2 n : str)
         (disk : str -> option (list Byte.byte))
         (data1 data2 : list Byte.byte),
    sep ∉ n ->
    disk (os_path_join root (lstrip_sep (d1 ++ sep :: n))) = Some data1 ->
    disk (os_path_join root (lstrip_sep (d2 ++ sep :: n))) = Some data2 ->
    create_zip_archive zip_encode root disk [d1 ++ sep :: n; d2 ++ sep :: n]
    = mkBytesIO (zip_encode [(n, data1); (n, data2)]) 0.
Proof.
  intros zip_encode root d1 d2 n disk data1 data2 Hn H1 H2.
  unfold create_zip_archive, close_zip, seek. cbn [getvalue].
  rewrite zip_from_disk_run. cbn [app flat_map].
  by rewrite H1, H2, !basename_of_joined.
Qed.

Lemma same_name_in_two_directories_collides_witness :
  create_zip_archive stored_encode media_root
    (fun p => if bool_decide (p = py "/srv/media/x/a.txt") then Some bytes_a
              else if bool_decide (p = py "/srv/media/y/a.txt")
                   then Some bytes_c else None)
    [py "x" ++ sep :: py "a.txt"; py "y" ++ sep :: py "a.txt"]
  = mkBytesIO (stored_encode [(py "a.txt", bytes_a); (py "a.txt", bytes_c)]) 0.
Proof.
  apply (same_name_in_two_directories_collides stored_encode media_root
           (py "x") (py "y") (py "a.txt")); try (by vm_compute).
  vm_compute. intros H. repeat (apply elem_of_cons in H as [H|H]; [done|]).
  by apply elem_of_nil in H.
Defined.

(** ** The single-file view *)

(** [download_file] drops one leading slash and asks the blocking
    resolver once.  A reply with a status other than 200 becomes a 400
    response and [redirect] is not consulted; a status-200 reply with a
    non-empty [href] is handed to [redirect] as it is.  A path given
    without the slash is treated like the same path with it. *)
Theorem download_file_answers_by_the_link :
  forall (net : Network) (token : str)
         (redirect : value -> outcome HttpResponse)
         (request : HttpRequest) (pk fp enc : str) (resp : Response)
         (w : World),
    quote_plus (drop 31 fp) = Ok enc ->
    net (trace w) (blocking_request token pk fp enc) = Answer resp ->
    (status_code resp <> 200 ->
     exists msg,
       download_file net token redirect request pk (sep :: fp) w
       = (Ok (mkHttpResponse 400 (Text msg) None []),
          sent (blocking_request token pk fp enc) w))
    /\ (forall d c target,
          status_code resp = 200 ->
          json resp = Some (VDict d) ->
          lookup_field (py "href") d = Some (VStr (c :: target)) ->
          download_file net token redirect request pk (sep :: fp) w
          = (redirect (VStr (c :: target)),
             sent (blocking_request token pk fp enc) w))
    /\ (head fp <> Some sep ->
        download_file net token redirect request pk fp w
        = download_file net token redirect request pk (sep :: fp) w).
Proof.
  intros net token redirect request pk fp enc resp w Henc Hrep.
  assert (Hstrip : download_file net token redirect request pk (sep :: fp) w
                   = bind (get_download_link net token pk fp)
                       (fun download_url =>
                          if truthy download_url
                          then lift (redirect download_url)
                          else ret (mkHttpResponse 400
                                      (Text (py "Ошибка при получении ссылки для скачивания."))
                                      None [])) w) by reflexivity.
  split; [|split].
  - intros Hst. eexists. rewrite Hstrip. unfold bind.
    rewrite (link_of_reply_blocking net token pk fp enc w Henc), Hrep.
    by rewrite (proj2 (Z.eqb_neq _ _) Hst).
  - intros d c target Hst Hj Hhref. rewrite Hstrip. unfold bind.
    rewrite (link_of_reply_blocking net token pk fp enc w Henc), Hrep.
    rewrite Hst, Hj, Hhref.
    cbn [Z.eqb Pos.eqb default from_option]. unfold id. cbn [truthy].
    by rewrite bool_decide_eq_false_2 by done.
  - intros Hhead. rewrite Hstrip. unfold download_file.
    destruct fp as [|c0 fp0]; [done|].
    destruct (c0 =? sep)%N eqn:Hc; [|done].
    apply N.eqb_eq in Hc as ->. by destruct Hhead.
Qed.

Lemma download_file_answers_by_the_link_witness :
  (exists msg,
      download_file (fun _ => archive_api) tok plain_redirect
        (mkHttpRequest (py "GET") []) folder (sep :: py "docs/a.txt") w0
      = (Ok (mkHttpResponse 400 (Text msg) None []),
         sent (blocking_request tok folder (py "docs/a.txt") []) w0))
  /\ download_file (fun _ => archive_api) tok plain_redirect
       (mkHttpRequest (py "GET") []) folder (py "docs/a.txt") w0
     = download_file (fun _ => archive_api) tok plain_redirect
         (mkHttpRequest (py "GET") []) folder (sep :: py "docs/a.txt") w0.
Proof.
  pose proof (download_file_answers_by_the_link (fun _ => archive_api) tok
                plain_redirect (mkHttpRequest (py "GET") []) folder
                (py "docs/a.txt") [] (mkResponse 404 None []) w0
                eq_refl eq_refl) as (H400 & _ & Hslash).
  split.
  - apply H400. simpl. lia.
  - apply Hslash. by vm_compute.
Defined.

(** ** The two resolvers read a reply alike *)


